(** * law-scan: the Public Law download and text-extraction pipeline

    A shallow embedding of [src/data/get_data_bulk.py].  The script runs
    three stages in sequence: it downloads one bulk manifest per congress,
    downloads every XML document the manifests list, and turns every cached
    XML document into a plain-text file.

    The file system is a finite map from path to contents, the network is an
    oracle, and every Python function that touches either of them becomes a
    computation in a small state-and-exception monad. *)

From Stdlib Require Import ZArith Ascii String DecimalString DecimalNat.
From stdpp Require Import gmap strings list fin_maps.

Local Open Scope Z_scope.
Local Open Scope string_scope.
Local Open Scope list_scope.
Local Open Scope stdpp_scope.

(** ** Python strings *)

Module PyStr.

(** [s.endswith(suffix)]. *)
Definition endswith (s suffix : string) : bool :=
  let n := String.length s in
  let k := String.length suffix in
  (k <=? n)%nat && String.eqb (String.substring (n - k) k s) suffix.

(** [s.startswith(prefix)]. *)
Fixpoint startswith (s pre : string) : bool :=
  match pre, s with
  | EmptyString, _ => true
  | String _ _, EmptyString => false
  | String a pre', String b s' => Ascii.eqb a b && startswith s' pre'
  end.

(** [s.replace(old, new)] for a non-empty [old]: the occurrences of [old]
    are found from the left and do not overlap.  [skip] counts the
    characters of a matched occurrence that are still to be passed over. *)
Fixpoint replace_from (skip : nat) (old new s : string) : string :=
  match s with
  | EmptyString => EmptyString
  | String c s' =>
      match skip with
      | S k => replace_from k old new s'
      | O =>
          if startswith s old
          then new +:+ replace_from (String.length old - 1) old new s'
          else String c (replace_from 0 old new s')
      end
  end.

Definition replace (old new s : string) : string := replace_from 0 old new s.

(** [s.split(sep)] for a one-character separator: the pieces between the
    separators, always at least one piece. *)
Fixpoint split (sep : ascii) (s : string) : list string :=
  match s with
  | EmptyString => [EmptyString]
  | String c s' =>
      if Ascii.eqb c sep then EmptyString :: split sep s'
      else match split sep s' with
           | piece :: pieces => String c piece :: pieces
           | [] => [String c EmptyString]
           end
  end.

(** [sep.join(pieces)]. *)
Fixpoint join (sep : string) (pieces : list string) : string :=
  match pieces with
  | [] => EmptyString
  | [p] => p
  | p :: rest => p +:+ sep +:+ join sep rest
  end.

(** [str(n)] for an integer. *)
Definition str_of_Z (n : Z) : string := NilZero.string_of_int (Z.to_int n).
Definition str_of_nat (n : nat) : string := NilZero.string_of_uint (Nat.to_uint n).

(** The line feed. *)
Definition newline : string := String "010" EmptyString.

(** Upper-casing of the letters [a] to [z], and the test for a string of
    ASCII characters only. *)
Definition ascii_upper_char (c : ascii) : ascii :=
  let n := nat_of_ascii c in
  if ((97 <=? n) && (n <=? 122))%nat then ascii_of_nat (n - 32) else c.

Fixpoint ascii_upper (s : string) : string :=
  match s with
  | EmptyString => EmptyString
  | String c s' => String (ascii_upper_char c) (ascii_upper s')
  end.

Fixpoint is_ascii (s : string) : bool :=
  match s with
  | EmptyString => true
  | String c s' => (nat_of_ascii c <? 128)%nat && is_ascii s'
  end.

Section Strip.
(** [isspace c] is Python's test for a whitespace character; it belongs to
    the interpreter's character tables and stays a parameter. *)
Variable isspace : ascii -> bool.

Fixpoint lstrip (s : string) : string :=
  match s with
  | EmptyString => EmptyString
  | String c s' => if isspace c then lstrip s' else s
  end.

(** [rstrip] drops the trailing run of whitespace. *)
Fixpoint rstrip (s : string) : string :=
  match s with
  | EmptyString => EmptyString
  | String c s' =>
      match rstrip s' with
      | EmptyString => if isspace c then EmptyString else String c EmptyString
      | r => String c r
      end
  end.

(** [s.strip()]. *)
Definition strip (s : string) : string := rstrip (lstrip s).

(** A string of whitespace characters only (the empty string included). *)
Fixpoint blank (s : string) : bool :=
  match s with
  | EmptyString => true
  | String c s' => isspace c && blank s'
  end.
End Strip.

End PyStr.

(** ** XML documents

    [xml.etree.ElementTree] hands the script a tree of elements.  An element
    has a tag (written [{namespace}local] when the tag is namespace
    qualified), the text before its first child, the tail text that follows
    its closing tag, and its children. *)

#[warnings="-register-all"]
Inductive Element : Type :=
  Elem (tag : string) (text tail : option string) (children : list Element).

Definition tag (e : Element) : string := let 'Elem t _ _ _ := e in t.
Definition text (e : Element) : option string := let 'Elem _ x _ _ := e in x.
Definition tail (e : Element) : option string := let 'Elem _ _ x _ := e in x.
Definition children (e : Element) : list Element := let 'Elem _ _ _ cs := e in cs.

(** [root.iter()]: the element itself, then all its descendants, in document
    order. *)
Fixpoint iter (e : Element) : list Element :=
  match e with
  | Elem _ _ _ cs => e :: flat_map iter cs
  end.

(** ** The extraction policy of [process_individual_law_file] *)

Definition ignore_sections : list string :=
  [ "actionDescription"; "toc"; "designator"; "label"; "referenceItem"; "num";
    "citableAs"; "approvedDate"; "publisher"; "creator"; "format"; "language";
    "rights"; "congress"; "docNumber"; "ref"; "committee"; "type"; "language";
    "format"; "page"; "processedBy"; "processedDate"; "publicPrivate";
    "endMarker" ].

Definition namespace_prefixes : list string :=
  [ "{http://schemas.gpo.gov/xml/uslm}";
    "{http://purl.org/dc/elements/1.1/}";
    "{http://purl.org/dc/terms/}" ].

(** The two nested loops that fill the set [ignore_sections_prefixed]. *)
Definition ignore_sections_prefixed : gset string :=
  foldl (fun acc prefix =>
           foldl (fun acc section => acc ∪ {[ prefix +:+ section ]})
                 acc ignore_sections)
        ∅ namespace_prefixes.

(** [tag in ignore_sections_prefixed]. *)
Definition is_ignored (t : string) : bool :=
  bool_decide (t ∈ ignore_sections_prefixed).

Definition LEGISLATIVE_HISTORY : string := "LEGISLATIVE HISTORY".

Section Extraction.
(** [str.upper] and the whitespace test come from the interpreter's
    Unicode tables. *)
Variable upper : string -> string.
Variable isspace : ascii -> bool.

(** One turn of the loop over [root.iter()]: an ignored tag contributes
    nothing, and so does a missing, empty or whitespace-only text. *)
Definition collect_step (inner_texts : list string) (element : Element)
  : list string :=
  if is_ignored (tag element) then inner_texts
  else match text element with
       | Some t =>
           if String.eqb t ""
           then inner_texts
           else if String.eqb (PyStr.strip isspace t) ""
                then inner_texts
                else inner_texts ++ [t]
       | None => inner_texts
       end.

Definition inner_texts (root : Element) : list string :=
  foldl collect_step [] (iter root).

(** The search loop: the index of the first text whose upper-cased form is
    the marker, [None] when the loop runs to its end. *)
Fixpoint find_legislative_history (i : nat) (texts : list string)
  : option nat :=
  match texts with
  | [] => None
  | t :: rest =>
      if String.eqb (upper t) LEGISLATIVE_HISTORY then Some i
      else find_legislative_history (S i) rest
  end.

(** [if legislative_history_index:] holds for a non-zero index only; both
    [None] and [0] are falsy. *)
Definition truncate (texts : list string) : list string :=
  match find_legislative_history 0 texts with
  | Some (S k) => take (S k) texts
  | Some O | None => texts
  end.

(** The text written for a parsed document. *)
Definition extract (root : Element) : string :=
  PyStr.join PyStr.newline (truncate (inner_texts root)).
End Extraction.

(** ** JSON values

    What [json.load] returns.  A number is kept as its literal: the script
    never computes with one. *)

#[warnings="-register-all"]
Inductive json : Type :=
| JNull
| JBool (b : bool)
| JNum (literal : string)
| JStr (s : string)
| JArr (items : list json)
| JObj (fields : list (string * json)).

(** A dictionary lookup by key in the list of fields. *)
Fixpoint assoc (key : string) (fields : list (string * json)) : option json :=
  match fields with
  | [] => None
  | (k, v) :: rest => if String.eqb k key then Some v else assoc key rest
  end.

(** ** Exceptions, the world and the monad *)

Inductive exn : Type :=
| Exception (message : string)      (* the script's own [raise Exception(...)] *)
| TransportError (url : string)     (* raised inside [requests.get] *)
| JSONDecodeError
| KeyError (key : string)
| TypeError
| AttributeError
| IndexError
| FileNotFoundError (path : string)
| LookupError (message : string)    (* an encoding the parser does not know *)
| ValueError (message : string).

(** How [ET.parse] ends: with the tree of the document, with the
    [ParseError] of a document that is not well-formed, or with another
    exception, such as the [LookupError] or [ValueError] of an encoding
    declaration that the parser does not support. *)
Inductive parsed : Type :=
| ParseError (message : string)
| Tree (root : Element)
| Uncaught (e : exn).

Inductive level : Type := INFO | ERROR.

Record response : Type := Response { status_code : Z; body : string }.

(** The world the script acts on: the files, the URLs fetched so far (oldest
    first) and the log records written so far (oldest first). *)
Record world : Type := World {
  fs : gmap string string;
  calls : list string;
  log : list (level * string)
}.

Inductive result (A : Type) : Type :=
| Ok (a : A) (w : world)
| Raise (e : exn) (w : world).
Arguments Ok {A} a w.
Arguments Raise {A} e w.

Definition M (A : Type) : Type := world -> result A.

Definition ret {A} (a : A) : M A := fun w => Ok a w.
Definition raise {A} (e : exn) : M A := fun w => Raise e w.
Definition bind {A B} (m : M A) (k : A -> M B) : M B :=
  fun w => match m w with
           | Ok a w' => k a w'
           | Raise e w' => Raise e w'
           end.

Notation "x <- m ;; k" := (bind m (fun x => k))
  (at level 65, m at next level, k at level 200, only parsing).
Notation "m ;;; k" := (bind m (fun _ => k))
  (at level 65, k at level 200, only parsing).

(** [for x in xs: body x]. *)
Fixpoint for_each {A} (body : A -> M unit) (xs : list A) : M unit :=
  match xs with
  | [] => ret tt
  | x :: rest => body x ;;; for_each body rest
  end.

(** The world after a computation, however it ended. *)
Definition final {A} (r : result A) : world :=
  match r with Ok _ w => w | Raise _ w => w end.

(** *** Primitive effects *)

Definition logger (l : level) (message : string) : M unit :=
  fun w => Ok tt (World (fs w) (calls w) (log w ++ [(l, message)])).

(** [os.path.exists(path)]. *)
Definition path_exists (path : string) : M bool :=
  fun w => Ok (bool_decide (is_Some (fs w !! path))) w.

(** [open(path, "w")] followed by [f.write(data)].  Every write of the
    script comes after the [os.makedirs] of its directory, so the directory
    is there and directories are not part of the world.  A path is a key
    of the map: this is the write of a plain file name in its directory.
    A name that carries a separator would be resolved by the file system
    (and the write fail, or land elsewhere); the properties that depend on
    where a file lands are stated for plain names. *)
Definition write_file (path data : string) : M unit :=
  fun w => Ok tt (World (<[path := data]> (fs w)) (calls w) (log w)).

(** Reading a whole file, as [open(path, "r")] and [ET.parse(path)] do. *)
Definition read_file (path : string) : M string :=
  fun w => match fs w !! path with
           | Some data => Ok data w
           | None => Raise (FileNotFoundError path) w
           end.

(** [os.remove(path)]. *)
Definition remove_file (path : string) : M unit :=
  fun w => match fs w !! path with
           | Some _ => Ok tt (World (delete path (fs w)) (calls w) (log w))
           | None => Raise (FileNotFoundError path) w
           end.

(** *** Directories

    A directory is the set of files whose path starts with its name.
    [strip_prefix dir path] is the file name left once [dir] is taken off
    the front of [path]. *)

Fixpoint strip_prefix (dir path : string) : option string :=
  match dir, path with
  | EmptyString, _ => Some path
  | String _ _, EmptyString => None
  | String a dir', String b path' =>
      if Ascii.eqb a b then strip_prefix dir' path' else None
  end.

(** The files of one directory, by name. *)
Definition entries (dir : string) (files : gmap string string)
  : gmap string string :=
  list_to_map
    (omap (fun pc : string * string =>
             match strip_prefix dir pc.1 with
             | Some name => Some (name, pc.2)
             | None => None
             end)
          (map_to_list files)).

(** [os.listdir(dir)]: the names in the directory, in an order that depends
    on that directory only.  The directory is taken to be there and to
    hold plain files only: the call itself raises on a missing directory
    and lists a sub-directory by its name. *)
Definition listdir (dir : string) : M (list string) :=
  fun w => Ok (map fst (map_to_list (entries dir (fs w)))) w.

(** *** Subscripts, iteration and formatting of JSON values *)

(** [v[key]] for a string key: only a dictionary can be subscripted by a
    string. *)
Definition subscript (v : json) (key : string) : M json :=
  match v with
  | JObj fields =>
      match assoc key fields with
      | Some x => ret x
      | None => raise (KeyError key)
      end
  | _ => raise TypeError
  end.

(** What [for x in v] runs over: the items of a list, the keys of a
    dictionary, the characters of a string; other values are not
    iterable. *)
Definition py_iter (v : json) : M (list json) :=
  match v with
  | JArr items => ret items
  | JObj fields => ret (map (fun kv => JStr kv.1) fields)
  | JStr s => ret (map (fun c => JStr (String c EmptyString)) (list_ascii_of_string s))
  | _ => raise TypeError
  end.

(** ** The script *)

Definition bulk_data_endpoint (congress : nat) : string :=
  "https://www.govinfo.gov/bulkdata/json/PLAW/" +:+ PyStr.str_of_nat congress
  +:+ "/public".
Definition bulk_data_dir : string := "data/raw/bulk/".
Definition individual_law_data_dir : string := "data/raw/individual/".
Definition processed_dir : string := "data/processed/".

(** The path of the manifest of a congress. *)
Definition plaw_json (congress : nat) : string :=
  bulk_data_dir +:+ "plaw_" +:+ PyStr.str_of_nat congress +:+ ".json".

Definition response_code_message (status : Z) (url : string) : string :=
  "Response code " +:+ PyStr.str_of_Z status +:+ " for " +:+ url.

(** The world in which the first stage starts: [main] has logged its
    greeting. *)
Definition greeted (w : world) : world :=
  World (fs w) (calls w) (log w ++ [(INFO, "Starting get_data.py")]).

Section Script.
(** The collaborators of the script that are not its own code. *)
Variable upper : string -> string.          (* [str.upper] *)
Variable isspace : ascii -> bool.           (* whitespace characters *)
Variable py_str : json -> string.           (* [str(v)] of a value that is not a string *)
Variable json_load : string -> option json. (* [json.load]; [None] when it fails *)
Variable xml_parse : string -> parsed.
  (* [ET.parse] of a file with the given contents *)
Variable server : list string -> string -> option response.
  (* the answer to a GET, given the requests sent before it; [None] when
     the transport fails *)

(** [{v}] inside an f-string. *)
Definition format_value (v : json) : string :=
  match v with
  | JStr s => s
  | _ => py_str v
  end.

(** [call_api(url)].  The two decorators hold a call back until the
    hourly budget allows it; they decide when the request is sent, not
    what it returns. *)
Definition call_api (url : string) : M response :=
  fun w =>
    let w' := World (fs w) (calls w ++ [url]) (log w) in
    match server (calls w) url with
    | Some r => Ok r w'
    | None => Raise (TransportError url) w'
    end.

Definition save_public_laws (congress : nat) (r : response) : M unit :=
  write_file (plaw_json congress) (body r).

Definition check_if_raw_data_exists (congress : nat) : M bool :=
  path_exists (plaw_json congress).

(** The body of the loop of [get_bulk_public_laws]. *)
Definition get_bulk_public_law (congress : nat) : M unit :=
  exists_ <- check_if_raw_data_exists congress ;;
  if exists_ : bool then
    logger INFO ("Skipping congress " +:+ PyStr.str_of_nat congress
                 +:+ ", already exists")
  else
    logger INFO ("Starting congress " +:+ PyStr.str_of_nat congress) ;;;
    let endpoint := bulk_data_endpoint congress in
    r <- call_api endpoint ;;
    if (status_code r =? 200)%Z then save_public_laws congress r
    else raise (Exception (response_code_message (status_code r) endpoint)).

Definition congresses : list nat := seq 113 6.

Definition get_bulk_public_laws : M unit :=
  for_each get_bulk_public_law congresses.

(** The body of the loop of [process_bulk_plaw_file]. *)
Definition process_law_info (law_info : json) : M unit :=
  name <- subscript law_info "name" ;;
  let name := format_value name in
  exists_ <- path_exists (individual_law_data_dir +:+ name) ;;
  if exists_ : bool then
    logger INFO ("Skipping " +:+ name +:+ ", already exists")
  else
    xml_url <- subscript law_info "link" ;;
    match xml_url with
    | JStr xml_url =>
        if negb (PyStr.endswith xml_url ".xml") then
          logger INFO ("Skipping " +:+ name +:+ ", not an xml file")
        else
          logger INFO ("Downloading " +:+ name +:+ " from " +:+ xml_url) ;;;
          r <- call_api xml_url ;;
          if (status_code r =? 200)%Z
          then write_file (individual_law_data_dir +:+ name) (body r)
          else raise (Exception (response_code_message (status_code r) xml_url))
    | _ => raise AttributeError
    end.

(** [bulk_plaw_file.split("_")[1].split(".")[0]]. *)
Definition decode_congress (bulk_plaw_file : string) : M string :=
  match PyStr.split "_" bulk_plaw_file !! 1%nat with
  | Some part =>
      match PyStr.split "." part !! 0%nat with
      | Some congress => ret congress
      | None => raise IndexError
      end
  | None => raise IndexError
  end.

Definition process_bulk_plaw_file (bulk_plaw_file : string) : M unit :=
  congress <- decode_congress bulk_plaw_file ;;
  logger INFO ("Processing bulk_plaw_file " +:+ bulk_plaw_file
               +:+ " for congress " +:+ congress) ;;;
  data <- read_file (bulk_data_dir +:+ bulk_plaw_file) ;;
  match json_load data with
  | None => raise JSONDecodeError
  | Some bulk_data =>
      bulk_data <- subscript bulk_data "files" ;;
      law_infos <- py_iter bulk_data ;;
      for_each process_law_info law_infos
  end.

Definition get_individual_laws : M unit :=
  bulk_plaw_files <- listdir bulk_data_dir ;;
  for_each process_bulk_plaw_file bulk_plaw_files.

(** Where the text of a document goes. *)
Definition txt_path (individual_law_file : string) : string :=
  PyStr.replace ".xml" ".txt" (processed_dir +:+ individual_law_file).

Definition process_individual_law_file (individual_law_file : string)
  : M unit :=
  let path := individual_law_data_dir +:+ individual_law_file in
  data <- read_file path ;;
  match xml_parse data with
  | ParseError e =>
      logger ERROR ("Error parsing " +:+ individual_law_file +:+ ": " +:+ e
                    +:+ ". " +:+ String "010" " deleting file") ;;;
      remove_file path
  | Uncaught e => raise e   (* [except ET.ParseError] catches nothing else *)
  | Tree root =>
      write_file (txt_path individual_law_file) (extract upper isspace root)
  end.

Definition process_individual_laws : M unit :=
  individual_law_files <- listdir individual_law_data_dir ;;
  for_each process_individual_law_file individual_law_files.

(** The three stages, in the order of the [__main__] block. *)
Definition main : M unit :=
  logger INFO "Starting get_data.py" ;;;
  get_bulk_public_laws ;;;
  get_individual_laws ;;;
  process_individual_laws.
End Script.

(** ** A small concrete world

    Concrete collaborators for running the script: ASCII letters and
    whitespace, a server that knows a handful of URLs, and parsers that know
    the handful of documents the server hands out. *)

Module Demo.

Definition upper : string -> string := PyStr.ascii_upper.

Definition isspace (c : ascii) : bool :=
  let n := nat_of_ascii c in
  ((9 <=? n) && (n <=? 13) || (28 <=? n) && (n <=? 32))%nat.

Definition py_str (v : json) : string :=
  match v with
  | JNull => "None"
  | JBool true => "True"
  | JBool false => "False"
  | JNum literal => literal
  | _ => "?"
  end.

(** A double quote, for writing JSON and XML text. *)
Definition q : string := String (ascii_of_nat 34) EmptyString.
Definition quoted (s : string) : string := q +:+ s +:+ q.

(** The manifest of the 115th congress: one XML document and one PDF. *)
Definition law_url : string := "https://h/plaw115-1.xml".
Definition report_url : string := "https://h/report.pdf".

Definition manifest_115 : string :=
  "{" +:+ quoted "files" +:+ ": [{" +:+ quoted "name" +:+ ": "
  +:+ quoted "plaw115-1.xml" +:+ ", " +:+ quoted "link" +:+ ": "
  +:+ quoted law_url +:+ "}, {" +:+ quoted "name" +:+ ": "
  +:+ quoted "report.pdf" +:+ ", " +:+ quoted "link" +:+ ": "
  +:+ quoted report_url +:+ "}]}".

Definition law_entry : json :=
  JObj [("name", JStr "plaw115-1.xml"); ("link", JStr law_url)].
Definition report_entry : json :=
  JObj [("name", JStr "report.pdf"); ("link", JStr report_url)].

Definition manifest_115_value : json :=
  JObj [("files", JArr [law_entry; report_entry])].

(** The manifest of a congress with no documents. *)
Definition manifest_empty : string := "{" +:+ quoted "files" +:+ ": []}".
Definition manifest_empty_value : json := JObj [("files", JArr [])].

(** A manifest that lists the same name with a PDF link. *)
Definition law_pdf_url : string := "https://h/plaw115-1.pdf".
Definition law_pdf_entry : json :=
  JObj [("name", JStr "plaw115-1.xml"); ("link", JStr law_pdf_url)].

Definition manifest_pdf : string :=
  "{" +:+ quoted "files" +:+ ": [{" +:+ quoted "name" +:+ ": "
  +:+ quoted "plaw115-1.xml" +:+ ", " +:+ quoted "link" +:+ ": "
  +:+ quoted law_pdf_url +:+ "}]}".
Definition manifest_pdf_value : json := JObj [("files", JArr [law_pdf_entry])].

Definition json_load (data : string) : option json :=
  if String.eqb data manifest_115 then Some manifest_115_value
  else if String.eqb data manifest_empty then Some manifest_empty_value
  else if String.eqb data manifest_pdf then Some manifest_pdf_value
  else None.

(** A law: a number, a section with nested content, the marker and the
    appendix after it. *)
Definition uslm : string := "http://schemas.gpo.gov/xml/uslm".

Definition law_xml : string :=
  "<pLaw xmlns=" +:+ quoted uslm +:+ "><num>Public Law 115-1</num>"
  +:+ "<section>SEC. 1.<content>This Act may be cited...</content> </section>"
  +:+ "<heading>LEGISLATIVE HISTORY</heading><p>House Reports: No. 1</p></pLaw>".

Definition in_uslm (name : string) : string := "{" +:+ uslm +:+ "}" +:+ name.

Definition law_tree : Element :=
  Elem (in_uslm "pLaw") None None
    [ Elem (in_uslm "num") (Some "Public Law 115-1") None [];
      Elem (in_uslm "section") (Some "SEC. 1.") None
        [ Elem (in_uslm "content") (Some "This Act may be cited...") (Some " ") [] ];
      Elem (in_uslm "heading") (Some "LEGISLATIVE HISTORY") None [];
      Elem (in_uslm "p") (Some "House Reports: No. 1") None [] ].

(** A document cut short in transit: its root element is never closed. *)
Definition broken_xml : string := "<pLaw><num>Public Law 115-1</num>".

(** A document that declares an encoding the parser does not know. *)
Definition odd_xml : string :=
  "<?xml version=" +:+ quoted "1.0" +:+ " encoding=" +:+ quoted "klingon"
  +:+ "?><pLaw/>".

Definition xml_parse (data : string) : parsed :=
  if String.eqb data law_xml then Tree law_tree
  else if String.eqb data odd_xml
       then Uncaught (LookupError "unknown encoding: klingon")
  else ParseError "no element found: line 1, column 33".

(** A server that answers every manifest request, with documents only for
    the 115th congress, and hands out [law] as the one XML document. *)
Definition serve (law : string) (history : list string) (url : string)
  : option response :=
  if String.eqb url (bulk_data_endpoint 115) then Some (Response 200 manifest_115)
  else if bool_decide (url ∈ map bulk_data_endpoint (seq 113 6))
       then Some (Response 200 manifest_empty)
  else if String.eqb url law_url then Some (Response 200 law)
  else Some (Response 404 "Not Found").

Definition server : list string -> string -> option response := serve law_xml.
Definition server_broken : list string -> string -> option response :=
  serve broken_xml.

(** A server that is down. *)
Definition server_down (history : list string) (url : string)
  : option response := Some (Response 503 "Service Unavailable").

(** No network at all. *)
Definition offline (history : list string) (url : string)
  : option response := None.

(** Nothing cached, nothing fetched, nothing logged. *)
Definition fresh : world := World ∅ [] [].

(** The law, downloaded and not yet extracted. *)
Definition law_file : string := "plaw115-1.xml".
Definition cached : world :=
  World {[ individual_law_data_dir +:+ law_file := law_xml ]} [] [].

(** The same document, cut short. *)
Definition cached_broken : world :=
  World {[ individual_law_data_dir +:+ law_file := broken_xml ]} [] [].

(** A document in an encoding the parser does not know. *)
Definition cached_odd : world :=
  World {[ individual_law_data_dir +:+ law_file := odd_xml ]} [] [].

(** The fresh world once the law has been fetched. *)
Definition fetched : world :=
  final (process_law_info py_str server law_entry fresh).

(** Two cached manifests that list the same name: the manifest of the
    114th congress with a PDF link, the manifest of the 115th with an XML
    link. *)
Definition listed_twice : world :=
  World {[ bulk_data_dir +:+ "plaw_114.json" := manifest_pdf;
           bulk_data_dir +:+ "plaw_115.json" := manifest_115 ]} [] [].

Definition after_114 : world :=
  final (process_bulk_plaw_file py_str json_load server "plaw_114.json"
           listed_twice).
Definition after_115 : world :=
  final (process_bulk_plaw_file py_str json_load server "plaw_115.json"
           after_114).

(** A cached law whose text file holds something else. *)
Definition stale : world :=
  World (<[txt_path law_file := "stale"]> (fs cached)) [] [].

(** The script, run against [server] and against [server_broken]. *)
Definition run : M unit := main upper isspace py_str json_load xml_parse server.
Definition run_broken : M unit :=
  main upper isspace py_str json_load xml_parse server_broken.

(** Two runs in a row against the server that hands out the broken
    document. *)
Definition first_run : world := final (run_broken fresh).
Definition second_run : world := final (run_broken first_run).

(** The stages of a run against [server], one after the other. *)
Definition stage_1 : world := final (get_bulk_public_laws server (greeted fresh)).
Definition stage_2 : world :=
  final (get_individual_laws py_str json_load server stage_1).
Definition stage_3 : world :=
  final (process_individual_laws upper isspace xml_parse stage_2).
End Demo.

(** * Vocabulary of the properties *)

(** A tag is administrative when it is one of the listed names under one of
    the three namespaces. *)
Definition administrative (t : string) : Prop :=
  exists prefix section,
    prefix ∈ namespace_prefixes /\ section ∈ ignore_sections /\
    t = prefix +:+ section.

(** What one element adds to the collected texts. *)
Definition contribution (isspace : ascii -> bool) (e : Element)
  : option string :=
  if is_ignored (tag e) then None
  else match text e with
       | Some t => if PyStr.blank isspace t then None else Some t
       | None => None
       end.

(** [scrub e] forgets what the extraction must not see: every tail, and the
    text of every element with an ignored tag. *)
Fixpoint scrub (e : Element) : Element :=
  match e with
  | Elem t x _ cs =>
      Elem t (if is_ignored t then None else x)
           None (map scrub cs)
  end.

(** Two worlds with the same files and the same fetch history; the log is
    left out of the comparison. *)
Definition same_state (w w' : world) : Prop :=
  fs w = fs w' /\ calls w = calls w'.

(** Two results that end the same way (the same value, or the same
    exception) in worlds with the same files and the same fetch history. *)
Definition same_outcome {A} (r r' : result A) : Prop :=
  match r, r' with
  | Ok a w, Ok a' w' => a = a' /\ same_state w w'
  | Raise e w, Raise e' w' => e = e' /\ same_state w w'
  | _, _ => False
  end.

(** A computation that never reads the log. *)
Definition log_blind {A} (m : M A) : Prop :=
  forall w w', same_state w w' -> same_outcome (m w) (m w').

(** The cache path of a manifest entry with the given name. *)
Definition cache_path (py_str : json -> string) (name : json) : string :=
  individual_law_data_dir +:+ format_value py_str name.

(** What the document stage may do to the files: leave a path as it is,
    or create a file in the document cache where there was none. *)
Definition cache_grows (files files' : gmap string string) : Prop :=
  forall path,
    files' !! path = files !! path
    \/ (files !! path = None
        /\ exists name, path = individual_law_data_dir +:+ name).

(** Every file outside the directory of the processed texts is still
    there, with its contents. *)
Definition keeps (files files' : gmap string string) : Prop :=
  forall path data,
    files !! path = Some data ->
    (forall name, path <> processed_dir +:+ name) ->
    files' !! path = Some data.

(** A manifest entry the document stage has nothing left to do for: its
    document is cached, or its link is not an XML link. *)
Definition entry_settled (py_str : json -> string)
    (files : gmap string string) (law_info : json) : Prop :=
  exists fields name,
    law_info = JObj fields
    /\ assoc "name" fields = Some name
    /\ (is_Some (files !! cache_path py_str name)
        \/ exists url, assoc "link" fields = Some (JStr url)
                       /\ PyStr.endswith url ".xml" = false).

(** A cached manifest that loads, and whose entries are all settled. *)
Definition manifest_settled (py_str : json -> string)
    (json_load : string -> option json)
    (files : gmap string string) (bulk_plaw_file : string) : Prop :=
  exists congress data bulk_data law_files law_infos,
    (forall w, decode_congress bulk_plaw_file w = Ok congress w)
    /\ files !! (bulk_data_dir +:+ bulk_plaw_file) = Some data
    /\ json_load data = Some bulk_data
    /\ (forall w, subscript bulk_data "files" w = Ok law_files w)
    /\ (forall w, py_iter law_files w = Ok law_infos w)
    /\ Forall (entry_settled py_str files) law_infos.

(** What the manifest stage may do to the files: leave a path as it is,
    or create the manifest of a congress where there was none. *)
Definition bulk_grows (files files' : gmap string string) : Prop :=
  forall path,
    files' !! path = files !! path
    \/ (files !! path = None /\ exists congress, path = plaw_json congress).

(** The congresses of a list whose manifest is not in the files: those
    for which [check_if_raw_data_exists] answers no. *)
Definition missing_manifests (files : gmap string string)
    (cs : list nat) : list nat :=
  List.filter
    (fun congress => negb (bool_decide (is_Some (files !! plaw_json congress))))
    cs.

(** No file is removed. *)
Definition persists (files files' : gmap string string) : Prop :=
  forall path, is_Some (files !! path) -> is_Some (files' !! path).

(** The effect of the extraction stage on the files when it reads the
    documents from [cache]: one text file per name whose document parses. *)
Definition extract_files (upper : string -> string) (isspace : ascii -> bool)
    (xml_parse : string -> parsed)
    (cache : gmap string string) (names : list string)
    (files : gmap string string) : gmap string string :=
  foldl (fun acc name =>
           match cache !! (individual_law_data_dir +:+ name) with
           | Some data =>
               match xml_parse data with
               | Tree root => <[txt_path name := extract upper isspace root]> acc
               | _ => acc
               end
           | None => acc
           end)
        files names.

(** What a completed extraction loop over the names in [listed] has made
    of the world: no request; each path left as it was, or a malformed
    document removed, or the text of a document that parses written; the
    malformed documents gone; the text path of every document that parses
    filled with the text of a document that has this text path; and no
    document met on which the parser raised anything but a [ParseError]. *)
Definition extracted (upper : string -> string) (isspace : ascii -> bool)
    (xml_parse : string -> parsed) (listed : string -> Prop)
    (w w' : world) : Prop :=
  calls w' = calls w
  /\ (forall path,
        fs w' !! path = fs w !! path
        \/ (exists name data message,
              listed name
              /\ path = individual_law_data_dir +:+ name
              /\ fs w !! path = Some data
              /\ xml_parse data = ParseError message
              /\ fs w' !! path = None)
        \/ (exists name data root,
              listed name
              /\ path = txt_path name
              /\ fs w !! (individual_law_data_dir +:+ name) = Some data
              /\ xml_parse data = Tree root
              /\ fs w' !! path = Some (extract upper isspace root)))
  /\ (forall name data message,
        listed name ->
        fs w !! (individual_law_data_dir +:+ name) = Some data ->
        xml_parse data = ParseError message ->
        fs w' !! (individual_law_data_dir +:+ name) = None)
  /\ (forall name data root,
        listed name ->
        fs w !! (individual_law_data_dir +:+ name) = Some data ->
        xml_parse data = Tree root ->
        exists name' data' root',
          listed name'
          /\ txt_path name' = txt_path name
          /\ fs w !! (individual_law_data_dir +:+ name') = Some data'
          /\ xml_parse data' = Tree root'
          /\ fs w' !! txt_path name = Some (extract upper isspace root'))
  /\ (forall name data e,
        listed name ->
        fs w !! (individual_law_data_dir +:+ name) = Some data ->
        xml_parse data <> Uncaught e).

(** [c in s] for a character. *)
Fixpoint has_char (c : ascii) (s : string) : bool :=
  match s with
  | EmptyString => false
  | String a s' => Ascii.eqb a c || has_char c s'
  end.

(** A name that names a file directly inside a directory: not empty, not
    one of the two dot entries, free of the separator and of the null
    character, and no longer than a file name may be. *)
Definition plain_name (name : string) : bool :=
  negb (String.eqb name "") && negb (String.eqb name ".")
  && negb (String.eqb name "..")
  && negb (has_char "/" name) && negb (has_char "000" name)
  && (String.length name <=? 255)%nat.

(** A directory that holds plain files only. *)
Definition flat (dir : string) (files : gmap string string) : Prop :=
  forall name, is_Some (files !! (dir +:+ name)) -> plain_name name = true.

(** The decimal digits. *)
Definition is_digit (c : ascii) : bool :=
  let n := nat_of_ascii c in ((48 <=? n) && (n <=? 57))%nat.

(** The name under which [save_public_laws] files the manifest of a
    congress in the bulk directory. *)
Definition plaw_name (congress : nat) : string :=
  "plaw_" +:+ PyStr.str_of_nat congress +:+ ".json".

(** * Properties *)

(** ** Strings *)

Lemma lstrip_blank isspace s :
  PyStr.blank isspace s = true -> PyStr.lstrip isspace s = "".
Proof.
  induction s as [|c s IH]; simpl; [done|].
  destruct (isspace c); simpl; [exact IH | discriminate].
Qed.

Lemma rstrip_empty isspace s :
  PyStr.rstrip isspace s = "" <-> PyStr.blank isspace s = true.
Proof.
  induction s as [|c s IH]; simpl; [done|].
  destruct (PyStr.rstrip isspace s) eqn:Hr.
  - destruct (isspace c); simpl.
    + split; [intros _; by apply IH | done].
    + split; discriminate.
  - split; [discriminate|].
    intros [_ Hb]%andb_true_iff. apply IH in Hb. discriminate.
Qed.

Lemma lstrip_not_blank isspace s :
  PyStr.blank isspace s = false ->
  PyStr.blank isspace (PyStr.lstrip isspace s) = false.
Proof.
  induction s as [|c s IH]; simpl; [done|].
  destruct (isspace c) eqn:Hc; simpl; [exact IH|].
  intros _. by rewrite Hc.
Qed.

(** [s.strip() == ""] exactly when [s] is made of whitespace only. *)
Lemma strip_empty isspace s :
  PyStr.strip isspace s = "" <-> PyStr.blank isspace s = true.
Proof.
  unfold PyStr.strip. rewrite rstrip_empty. split.
  - intros H. destruct (PyStr.blank isspace s) eqn:Hb; [done|].
    apply (lstrip_not_blank isspace) in Hb. congruence.
  - intros H. by rewrite (lstrip_blank _ _ H).
Qed.

Lemma string_eqb_empty s : String.eqb s "" = true <-> s = "".
Proof. apply String.eqb_eq. Qed.

(** ** The exclusion set *)

Lemma elem_of_add_sections (prefix : string) (sections : list string)
    (acc : gset string) (t : string) :
  t ∈ foldl (fun acc section => acc ∪ {[ prefix +:+ section ]}) acc sections
  <-> t ∈ acc \/ exists section, section ∈ sections /\ t = prefix +:+ section.
Proof.
  revert acc. induction sections as [|x sections IH]; intros acc; simpl.
  - split; [by left | intros [H | (x & Hx & _)]; [done | by apply elem_of_nil in Hx]].
  - rewrite IH, elem_of_union, elem_of_singleton. split.
    + intros [[H | H] | (y & Hy & Ht)].
      * by left.
      * right. exists x. split; [apply list_elem_of_here | done].
      * right. exists y. split; [by apply list_elem_of_further | done].
    + intros [H | (y & Hy & Ht)]; [by left; left|].
      apply elem_of_cons in Hy as [-> | Hy]; [by left; right|].
      right. by exists y.
Qed.

Lemma elem_of_add_prefixes (prefixes sections : list string)
    (acc : gset string) (t : string) :
  t ∈ foldl (fun acc prefix =>
               foldl (fun acc section => acc ∪ {[ prefix +:+ section ]})
                     acc sections) acc prefixes
  <-> t ∈ acc \/ exists prefix section,
        prefix ∈ prefixes /\ section ∈ sections /\ t = prefix +:+ section.
Proof.
  revert acc. induction prefixes as [|p prefixes IH]; intros acc; simpl.
  - split; [by left | intros [H | (p & x & Hp & _)]; [done | by apply elem_of_nil in Hp]].
  - rewrite IH, elem_of_add_sections. split.
    + intros [[H | (x & Hx & Ht)] | (q & x & Hq & Hx & Ht)].
      * by left.
      * right. exists p, x. split; [apply list_elem_of_here | done].
      * right. exists q, x. split; [by apply list_elem_of_further | done].
    + intros [H | (q & x & Hq & Hx & Ht)]; [by left; left|].
      apply elem_of_cons in Hq as [-> | Hq].
      * left. right. by exists x.
      * right. by exists q, x.
Qed.

(** The set the loops build holds the administrative tags and nothing
    else. *)
Lemma ignore_sections_prefixed_spec (t : string) :
  t ∈ ignore_sections_prefixed <-> administrative t.
Proof.
  unfold ignore_sections_prefixed, administrative.
  rewrite elem_of_add_prefixes. split; [|by right].
  intros [H | H]; [by apply not_elem_of_empty in H | done].
Qed.

Lemma is_ignored_spec (t : string) :
  is_ignored t = true <-> administrative t.
Proof.
  unfold is_ignored. rewrite bool_decide_eq_true.
  apply ignore_sections_prefixed_spec.
Qed.

(** From here on the set is known by its specification only; simplification
    leaves it alone. *)
Opaque ignore_sections_prefixed is_ignored.

(** ** Collecting the texts *)

(** An induction principle that reaches the children of an element. *)
Lemma Element_rect' (P : Element -> Prop) :
  (forall t x y cs, Forall P cs -> P (Elem t x y cs)) ->
  forall e, P e.
Proof.
  intros HP. fix IH 1. intros [t x y cs]. apply HP.
  induction cs as [|c cs IHcs]; constructor; [apply IH | exact IHcs].
Qed.

Lemma omap_cons {A B} (f : A -> option B) (x : A) (l : list A) :
  omap f (x :: l) = option_list (f x) ++ omap f l.
Proof. cbn [omap list_omap]. by destruct (f x). Qed.

Section Collect.
Variable isspace : ascii -> bool.

Lemma collect_step_contribution acc e :
  collect_step isspace acc e = acc ++ option_list (contribution isspace e).
Proof.
  unfold collect_step, contribution.
  destruct (is_ignored (tag e)); [by rewrite app_nil_r|].
  destruct (text e) as [t|]; [|by rewrite app_nil_r].
  destruct (String.eqb t "") eqn:He.
  - apply String.eqb_eq in He as ->. simpl. by rewrite app_nil_r.
  - destruct (String.eqb (PyStr.strip isspace t) "") eqn:Hs.
    + apply String.eqb_eq, strip_empty in Hs. rewrite Hs. by rewrite app_nil_r.
    + destruct (PyStr.blank isspace t) eqn:Hb; [|done].
      apply strip_empty in Hb. rewrite Hb in Hs. discriminate.
Qed.

Lemma foldl_collect_step acc es :
  foldl (collect_step isspace) acc es = acc ++ omap (contribution isspace) es.
Proof.
  revert acc. induction es as [|e es IH]; intros acc.
  - cbn [foldl omap list_omap]. by rewrite app_nil_r.
  - cbn [foldl]. rewrite IH, collect_step_contribution, omap_cons.
    by rewrite <- app_assoc.
Qed.

(** The collected sequence: the contributions of the elements, in document
    order. *)
Lemma inner_texts_omap root :
  inner_texts isspace root = omap (contribution isspace) (iter root).
Proof. unfold inner_texts. by rewrite foldl_collect_step. Qed.

Lemma contribution_scrub e : contribution isspace (scrub e) = contribution isspace e.
Proof.
  destruct e as [t x y cs]. unfold contribution. cbn [scrub tag text].
  by destruct (is_ignored t).
Qed.

Lemma omap_contribution_scrub e :
  omap (contribution isspace) (iter (scrub e)) = omap (contribution isspace) (iter e).
Proof.
  induction e as [t x y cs IH] using Element_rect'.
  change (iter (scrub (Elem t x y cs)))
    with (scrub (Elem t x y cs) :: flat_map iter (map scrub cs)).
  change (iter (Elem t x y cs)) with (Elem t x y cs :: flat_map iter cs).
  rewrite (omap_cons _ (scrub (Elem t x y cs))), (omap_cons _ (Elem t x y cs)).
  rewrite (contribution_scrub (Elem t x y cs)). apply (f_equal (app _)).
  induction IH as [|c cs Hc _ IHcs]; [done|].
  cbn [map flat_map]. rewrite !omap_app. by rewrite Hc, IHcs.
Qed.
End Collect.

(** ** Truncation at the marker *)

Section Truncation.
Variable upper : string -> string.

(** The search returns the position of the first text that upper-cases to
    the marker. *)
Lemma find_legislative_history_first (texts : list string) :
  forall (k i : nat) (t : string),
    texts !! i = Some t ->
    upper t = LEGISLATIVE_HISTORY ->
    (forall j u, (j < i)%nat -> texts !! j = Some u ->
                 upper u <> LEGISLATIVE_HISTORY) ->
    find_legislative_history upper k texts = Some (k + i)%nat.
Proof.
  induction texts as [|x texts IH]; intros k i t Hi Ht Hbefore; [done|].
  cbn [find_legislative_history]. destruct i as [|i].
  - injection Hi as ->. rewrite Ht, String.eqb_refl. f_equal. lia.
  - destruct (String.eqb (upper x) LEGISLATIVE_HISTORY) eqn:Hx.
    + apply String.eqb_eq in Hx. by destruct (Hbefore 0%nat x); [lia| |].
    + rewrite (IH (S k) i t Hi Ht); [f_equal; lia|].
      intros j u Hj Hu. apply (Hbefore (S j) u); [lia | done].
Qed.

Lemma find_legislative_history_none (texts : list string) :
  forall k,
    (forall u, u ∈ texts -> upper u <> LEGISLATIVE_HISTORY) ->
    find_legislative_history upper k texts = None.
Proof.
  induction texts as [|x texts IH]; intros k Hall; [done|].
  cbn [find_legislative_history].
  destruct (String.eqb (upper x) LEGISLATIVE_HISTORY) eqn:Hx.
  - apply String.eqb_eq in Hx. destruct (Hall x); [apply list_elem_of_here | done].
  - apply IH. intros u Hu. apply Hall. by apply list_elem_of_further.
Qed.

(** What is kept when the first match is at position [i]. *)
Lemma truncate_first (texts : list string) (i : nat) (t : string) :
  texts !! i = Some t ->
  upper t = LEGISLATIVE_HISTORY ->
  (forall j u, (j < i)%nat -> texts !! j = Some u ->
               upper u <> LEGISLATIVE_HISTORY) ->
  truncate upper texts = match i with O => texts | S _ => take i texts end.
Proof.
  intros Hi Ht Hbefore. unfold truncate.
  rewrite (find_legislative_history_first texts 0 i t Hi Ht Hbefore).
  by destruct i.
Qed.

Lemma truncate_no_match (texts : list string) :
  (forall u, u ∈ texts -> upper u <> LEGISLATIVE_HISTORY) ->
  truncate upper texts = texts.
Proof.
  intros Hall. unfold truncate.
  by rewrite (find_legislative_history_none texts 0 Hall).
Qed.
End Truncation.

(** ** Paths *)

(** The replacement never touches the directory part: the text file lies
    in the directory of the processed files. *)
Lemma txt_path_processed (file : string) :
  txt_path file = processed_dir +:+ PyStr.replace ".xml" ".txt" file.
Proof. reflexivity. Qed.

(** The three directories are apart. *)
Lemma individual_not_processed (name name' : string) :
  individual_law_data_dir +:+ name <> processed_dir +:+ name'.
Proof. cbn. discriminate. Qed.

Lemma bulk_not_processed (name name' : string) :
  bulk_data_dir +:+ name <> processed_dir +:+ name'.
Proof. cbn. discriminate. Qed.

Lemma bulk_not_individual (name name' : string) :
  bulk_data_dir +:+ name <> individual_law_data_dir +:+ name'.
Proof. cbn. discriminate. Qed.

Lemma txt_path_not_cached' (name file : string) :
  individual_law_data_dir +:+ name <> txt_path file.
Proof. rewrite txt_path_processed. apply individual_not_processed. Qed.

Lemma txt_path_not_cached (file : string) :
  individual_law_data_dir +:+ file <> txt_path file.
Proof. apply txt_path_not_cached'. Qed.

(** ** Directories *)

Lemma strip_prefix_Some (dir path name : string) :
  strip_prefix dir path = Some name <-> path = dir +:+ name.
Proof.
  revert path. induction dir as [|a dir IH]; intros path; cbn.
  - split; [by intros [= ->] | by intros ->].
  - destruct path as [|b path]; [by split|].
    destruct (Ascii.eqb a b) eqn:Hab.
    + apply Ascii.eqb_eq in Hab as ->. rewrite IH.
      split; [by intros -> | by intros [= ->]].
    + apply Ascii.eqb_neq in Hab. split; [done | by intros [= <- _]].
Qed.

(** A directory holds, under each name, the file at the path made of the
    directory and the name. *)
Lemma entries_lookup (dir : string) (files : gmap string string)
    (name : string) :
  entries dir files !! name = files !! (dir +:+ name).
Proof.
  apply option_eq. intros data. unfold entries. split.
  - intros H. apply elem_of_list_to_map_2, list_elem_of_omap in H
      as ([path data'] & Hin & Hstrip). cbn in Hstrip.
    destruct (strip_prefix dir path) as [name'|] eqn:Hpath; [|done].
    injection Hstrip as -> ->. apply strip_prefix_Some in Hpath as ->.
    by apply elem_of_map_to_list.
  - intros H. apply elem_of_list_to_map_1'.
    + intros data' Hin. apply list_elem_of_omap in Hin
        as ([path data''] & Hin & Hstrip). cbn in Hstrip.
      destruct (strip_prefix dir path) as [name'|] eqn:Hpath; [|done].
      injection Hstrip as -> ->. apply strip_prefix_Some in Hpath as ->.
      apply elem_of_map_to_list in Hin. congruence.
    + apply list_elem_of_omap. exists (dir +:+ name, data).
      split; [by apply elem_of_map_to_list|]. cbn.
      by rewrite (proj2 (strip_prefix_Some dir (dir +:+ name) name) eq_refl).
Qed.

(** Two file systems that agree inside a directory list it alike. *)
Lemma entries_ext (dir : string) (files files' : gmap string string) :
  (forall name, files !! (dir +:+ name) = files' !! (dir +:+ name)) ->
  entries dir files = entries dir files'.
Proof.
  intros Hagree. apply map_eq. intros name.
  by rewrite !entries_lookup.
Qed.

Lemma elem_of_listing (dir : string) (files : gmap string string)
    (name : string) :
  name ∈ map fst (map_to_list (entries dir files))
  <-> is_Some (files !! (dir +:+ name)).
Proof.
  rewrite <- entries_lookup. change (map fst) with (fmap (M:=list) (@fst string string)).
  rewrite list_elem_of_fmap. split.
  - intros ([name' data] & -> & Hin). apply elem_of_map_to_list in Hin.
    by eexists.
  - intros [data Hdata]. exists (name, data).
    split; [done | by apply elem_of_map_to_list].
Qed.

(** ** One document through [process_individual_law_file] *)

Section OneDocument.
Variable upper : string -> string.
Variable isspace : ascii -> bool.
Variable xml_parse : string -> parsed.

Lemma process_parsed (file data : string) (root : Element) (w : world) :
  fs w !! (individual_law_data_dir +:+ file) = Some data ->
  xml_parse data = Tree root ->
  process_individual_law_file upper isspace xml_parse file w =
    Ok tt (World (<[txt_path file := extract upper isspace root]> (fs w))
                 (calls w) (log w)).
Proof.
  intros Hdata Hparse.
  unfold process_individual_law_file, bind, read_file.
  by rewrite Hdata, Hparse.
Qed.

Lemma process_malformed (file data message : string) (w : world) :
  fs w !! (individual_law_data_dir +:+ file) = Some data ->
  xml_parse data = ParseError message ->
  process_individual_law_file upper isspace xml_parse file w =
    Ok tt (World (delete (individual_law_data_dir +:+ file) (fs w))
                 (calls w)
                 (log w ++ [(ERROR, "Error parsing " +:+ file +:+ ": "
                                    +:+ message +:+ ". " +:+ PyStr.newline
                                    +:+ " deleting file")])).
Proof.
  intros Hdata Hparse.
  unfold process_individual_law_file, bind, read_file.
  rewrite Hdata, Hparse. unfold logger, remove_file. cbn [fs calls log].
  by rewrite Hdata.
Qed.
End OneDocument.

(** ** The log is write-only *)

Lemma same_state_refl w : same_state w w.
Proof. by split. Qed.

Lemma same_state_trans w1 w2 w3 :
  same_state w1 w2 -> same_state w2 w3 -> same_state w1 w3.
Proof. intros [? ?] [? ?]. split; congruence. Qed.

Lemma same_outcome_refl {A} (r : result A) : same_outcome r r.
Proof. destruct r; split; (done || apply same_state_refl). Qed.

Lemma same_outcome_sym {A} (r r' : result A) :
  same_outcome r r' -> same_outcome r' r.
Proof.
  destruct r, r'; cbn; try done; intros [-> [? ?]]; repeat split; done.
Qed.

Lemma same_outcome_trans {A} (r1 r2 r3 : result A) :
  same_outcome r1 r2 -> same_outcome r2 r3 -> same_outcome r1 r3.
Proof.
  destruct r1, r2, r3; cbn; try done;
    intros [-> H12] [-> H23]; (split; [done | by eapply same_state_trans]).
Qed.

Lemma log_blind_ret {A} (a : A) : log_blind (ret a).
Proof. intros w w' H. by split. Qed.

Lemma log_blind_raise {A} (e : exn) : log_blind (@raise A e).
Proof. intros w w' H. by split. Qed.

Lemma log_blind_bind {A B} (m : M A) (k : A -> M B) :
  log_blind m -> (forall a, log_blind (k a)) -> log_blind (bind m k).
Proof.
  intros Hm Hk w w' H. unfold bind. specialize (Hm w w' H).
  destruct (m w) as [a w1|e w1], (m w') as [a' w1'|e' w1']; cbn in Hm;
    try done; destruct Hm as [-> Hs]; first [by apply Hk | done].
Qed.

Lemma log_blind_for_each {A} (body : A -> M unit) (xs : list A) :
  (forall x, log_blind (body x)) -> log_blind (for_each body xs).
Proof.
  intros Hbody. induction xs as [|x xs IH]; cbn [for_each].
  - apply log_blind_ret.
  - apply log_blind_bind; [apply Hbody | intros _; exact IH].
Qed.

Lemma log_blind_logger l message : log_blind (logger l message).
Proof. intros w w' [Hf Hc]. by repeat split. Qed.

Lemma log_blind_path_exists path : log_blind (path_exists path).
Proof. intros w w' [Hf Hc]. cbn. rewrite Hf. by repeat split. Qed.

Lemma log_blind_write_file path data : log_blind (write_file path data).
Proof. intros w w' [Hf Hc]. cbn. rewrite Hf. by repeat split. Qed.

Lemma log_blind_read_file path : log_blind (read_file path).
Proof.
  intros w w' [Hf Hc]. unfold read_file. rewrite Hf.
  destruct (fs w' !! path); by repeat split.
Qed.

Lemma log_blind_remove_file path : log_blind (remove_file path).
Proof.
  intros w w' [Hf Hc]. unfold remove_file. rewrite Hf.
  destruct (fs w' !! path); cbn; rewrite ?Hf; by repeat split.
Qed.

Lemma log_blind_listdir dir : log_blind (listdir dir).
Proof. intros w w' [Hf Hc]. cbn. rewrite Hf. by repeat split. Qed.

Lemma log_blind_subscript v key : log_blind (subscript v key).
Proof.
  destruct v; cbn; try apply log_blind_raise.
  destruct (assoc key fields); [apply log_blind_ret | apply log_blind_raise].
Qed.

Lemma log_blind_py_iter v : log_blind (py_iter v).
Proof. destruct v; cbn; (apply log_blind_ret || apply log_blind_raise). Qed.

Create HintDb blind.

#[local] Hint Resolve log_blind_ret log_blind_raise log_blind_logger
  log_blind_path_exists log_blind_write_file log_blind_read_file
  log_blind_remove_file log_blind_listdir log_blind_subscript
  log_blind_py_iter : blind.

(** Walks through a computation: binds, branches, then the primitives. *)
Ltac blind :=
  repeat first
    [ apply log_blind_bind; [|intros ?]
    | apply log_blind_for_each; intros ?
    | progress auto with blind
    | match goal with
      | |- log_blind (if ?b then _ else _) => destruct b
      | |- log_blind (match ?x with _ => _ end) => destruct x
      end ].

Section Blind.
Variable upper : string -> string.
Variable isspace : ascii -> bool.
Variable py_str : json -> string.
Variable json_load : string -> option json.
Variable xml_parse : string -> parsed.
Variable server : list string -> string -> option response.

Lemma log_blind_call_api url : log_blind (call_api server url).
Proof.
  intros w w' [Hf Hc]. unfold call_api. rewrite Hc, Hf.
  destruct (server (calls w') url); by repeat split.
Qed.
Hint Resolve log_blind_call_api : blind.

Lemma log_blind_get_bulk_public_law congress :
  log_blind (get_bulk_public_law server congress).
Proof.
  unfold get_bulk_public_law, check_if_raw_data_exists, save_public_laws.
  blind.
Qed.

Lemma log_blind_process_law_info law_info :
  log_blind (process_law_info py_str server law_info).
Proof. unfold process_law_info. blind. Qed.

Lemma log_blind_process_individual_law_file file :
  log_blind (process_individual_law_file upper isspace xml_parse file).
Proof. unfold process_individual_law_file. blind. Qed.
End Blind.

(** ** One manifest entry through [process_law_info] *)

Section OneEntry.
Variable py_str : json -> string.
Variable server : list string -> string -> option response.

Lemma law_info_cached (fields : list (string * json)) (name : json) (w : world) :
  assoc "name" fields = Some name ->
  is_Some (fs w !! cache_path py_str name) ->
  process_law_info py_str server (JObj fields) w =
    Ok tt (World (fs w) (calls w)
             (log w ++ [(INFO, "Skipping " +:+ format_value py_str name
                               +:+ ", already exists")])).
Proof.
  intros Hname Hsome.
  unfold process_law_info, bind, subscript, path_exists, ret.
  rewrite Hname. fold (cache_path py_str name).
  by rewrite (bool_decide_eq_true_2 _ Hsome).
Qed.

Lemma law_info_not_xml (fields : list (string * json)) (name : json)
    (url : string) (w : world) :
  assoc "name" fields = Some name ->
  fs w !! cache_path py_str name = None ->
  assoc "link" fields = Some (JStr url) ->
  PyStr.endswith url ".xml" = false ->
  process_law_info py_str server (JObj fields) w =
    Ok tt (World (fs w) (calls w)
             (log w ++ [(INFO, "Skipping " +:+ format_value py_str name
                               +:+ ", not an xml file")])).
Proof.
  intros Hname Hnone Hlink Hext.
  unfold process_law_info, bind, subscript, path_exists, ret.
  rewrite Hname. fold (cache_path py_str name).
  rewrite bool_decide_eq_false_2 by (rewrite Hnone; by intros [? ?]).
  by rewrite Hlink, Hext.
Qed.

Lemma law_info_fetched (fields : list (string * json)) (name : json)
    (url : string) (r : response) (w : world) :
  assoc "name" fields = Some name ->
  fs w !! cache_path py_str name = None ->
  assoc "link" fields = Some (JStr url) ->
  PyStr.endswith url ".xml" = true ->
  server (calls w) url = Some r ->
  let record := (INFO, "Downloading " +:+ format_value py_str name
                       +:+ " from " +:+ url) in
  process_law_info py_str server (JObj fields) w =
    if (status_code r =? 200)%Z
    then Ok tt (World (<[cache_path py_str name := body r]> (fs w))
                      (calls w ++ [url]) (log w ++ [record]))
    else Raise (Exception (response_code_message (status_code r) url))
               (World (fs w) (calls w ++ [url]) (log w ++ [record])).
Proof.
  intros Hname Hnone Hlink Hext Hserver record.
  unfold process_law_info, bind, subscript, path_exists, ret.
  rewrite Hname. fold (cache_path py_str name).
  rewrite bool_decide_eq_false_2 by (rewrite Hnone; by intros [? ?]).
  rewrite Hlink, Hext. cbn [negb]. unfold logger, call_api, write_file, raise.
  cbn [fs calls log]. rewrite Hserver. by destruct (status_code r =? 200)%Z.
Qed.
End OneEntry.

(** ** One congress through [get_bulk_public_law] *)

Section OneCongress.
Variable server : list string -> string -> option response.

Lemma congress_cached (congress : nat) (w : world) :
  is_Some (fs w !! plaw_json congress) ->
  get_bulk_public_law server congress w =
    Ok tt (World (fs w) (calls w)
             (log w ++ [(INFO, "Skipping congress "
                               +:+ PyStr.str_of_nat congress
                               +:+ ", already exists")])).
Proof.
  intros Hsome.
  unfold get_bulk_public_law, bind, check_if_raw_data_exists, path_exists.
  by rewrite (bool_decide_eq_true_2 _ Hsome).
Qed.

Lemma congress_fetched (congress : nat) (r : response) (w : world) :
  fs w !! plaw_json congress = None ->
  server (calls w) (bulk_data_endpoint congress) = Some r ->
  let record := (INFO, "Starting congress " +:+ PyStr.str_of_nat congress) in
  get_bulk_public_law server congress w =
    if (status_code r =? 200)%Z
    then Ok tt (World (<[plaw_json congress := body r]> (fs w))
                      (calls w ++ [bulk_data_endpoint congress])
                      (log w ++ [record]))
    else Raise (Exception (response_code_message (status_code r)
                             (bulk_data_endpoint congress)))
               (World (fs w) (calls w ++ [bulk_data_endpoint congress])
                      (log w ++ [record])).
Proof.
  intros Hnone Hserver record.
  unfold get_bulk_public_law, bind, check_if_raw_data_exists, path_exists.
  rewrite bool_decide_eq_false_2 by (rewrite Hnone; by intros [? ?]).
  unfold logger, call_api, save_public_laws, write_file, raise.
  cbn [fs calls log]. rewrite Hserver.
  by destruct (status_code r =? 200)%Z.
Qed.
End OneCongress.

(** ** Loops *)

Lemma for_each_app {A} (body : A -> M unit) (xs ys : list A) (w : world) :
  for_each body (xs ++ ys) w =
    match for_each body xs w with
    | Ok _ w' => for_each body ys w'
    | Raise e w' => Raise e w'
    end.
Proof.
  revert w. induction xs as [|x xs IH]; intros w; [done|].
  cbn [app for_each]. unfold bind.
  destruct (body x w) as [[] w1|e w1]; [apply IH | done].
Qed.

(** An exception in the body ends the loop there: what is left of the list
    is not looked at. *)
Lemma for_each_raise {A} (body : A -> M unit) (before after : list A)
    (x : A) (w w1 w2 : world) (e : exn) :
  for_each body before w = Ok tt w1 ->
  body x w1 = Raise e w2 ->
  for_each body (before ++ x :: after) w = Raise e w2.
Proof.
  intros Hbefore Hx. rewrite for_each_app, Hbefore.
  cbn [for_each]. unfold bind. by rewrite Hx.
Qed.

(** Three ways to reason about a loop.  [R] relates the files before and
    after a step; [P files x] says that item [x] needs no more work. *)
Section LoopInvariants.
Context {A : Type}.
Variable body : A -> M unit.
Variable R : gmap string string -> gmap string string -> Prop.
Variable P : gmap string string -> A -> Prop.
Hypothesis R_refl : forall files, R files files.
Hypothesis R_trans : forall f1 f2 f3, R f1 f2 -> R f2 f3 -> R f1 f3.
Hypothesis body_R : forall x w, R (fs w) (fs (final (body x w))).

Lemma for_each_related (xs : list A) (w : world) :
  R (fs w) (fs (final (for_each body xs w))).
Proof.
  revert w. induction xs as [|x xs IH]; intros w; cbn [for_each].
  - apply R_refl.
  - unfold bind. assert (Hx := body_R x w).
    destruct (body x w) as [[] w1|e w1]; cbn [final] in Hx; [|done].
    eapply R_trans; [exact Hx | apply IH].
Qed.

Hypothesis body_P : forall x w w', body x w = Ok tt w' -> P (fs w') x.
Hypothesis P_R : forall f f' x, R f f' -> P f x -> P f' x.

Lemma for_each_settles (xs : list A) (w w' : world) :
  for_each body xs w = Ok tt w' -> Forall (P (fs w')) xs.
Proof.
  revert w. induction xs as [|x xs IH]; intros w; cbn [for_each];
    [by constructor|].
  unfold bind. destruct (body x w) as [[] w1|e w1] eqn:Hx; [|done].
  intros Hrest. constructor; [|by eapply IH].
  apply (P_R (fs w1)); [|by eapply body_P].
  assert (H := for_each_related xs w1). by rewrite Hrest in H.
Qed.

Hypothesis P_skip :
  forall x w, P (fs w) x -> exists w', body x w = Ok tt w' /\ same_state w' w.

Lemma for_each_skips (xs : list A) (w : world) :
  Forall (P (fs w)) xs ->
  exists w', for_each body xs w = Ok tt w' /\ same_state w' w.
Proof.
  revert w. induction xs as [|x xs IH]; intros w Hall; cbn [for_each].
  - exists w. split; [done | apply same_state_refl].
  - apply Forall_cons in Hall as [Hx Hxs].
    destruct (P_skip x w Hx) as (w1 & Hstep & Hsame1).
    unfold bind. rewrite Hstep.
    destruct Hsame1 as [Hfs1 Hcalls1]. rewrite <- Hfs1 in Hxs.
    destruct (IH w1 Hxs) as (w' & Hloop & Hsame).
    exists w'. split; [exact Hloop|].
    eapply same_state_trans; [exact Hsame | by split].
Qed.
End LoopInvariants.

(** ** The stages inside [main] *)

Section Stages.
Variable upper : string -> string.
Variable isspace : ascii -> bool.
Variable py_str : json -> string.
Variable json_load : string -> option json.
Variable xml_parse : string -> parsed.
Variable server : list string -> string -> option response.

Lemma main_stages (w : world) :
  main upper isspace py_str json_load xml_parse server w =
    match get_bulk_public_laws server (greeted w) with
    | Ok _ w1 =>
        match get_individual_laws py_str json_load server w1 with
        | Ok _ w2 => process_individual_laws upper isspace xml_parse w2
        | Raise e w2 => Raise e w2
        end
    | Raise e w1 => Raise e w1
    end.
Proof. reflexivity. Qed.

(** An exception in the loop over the entries of a manifest leaves
    [process_bulk_plaw_file] as it is. *)
Lemma process_bulk_plaw_file_entries (file congress data : string)
    (bulk_data files : json) (law_infos : list json) (w : world) :
  decode_congress file w = Ok congress w ->
  fs w !! (bulk_data_dir +:+ file) = Some data ->
  json_load data = Some bulk_data ->
  (forall w', subscript bulk_data "files" w' = Ok files w') ->
  (forall w', py_iter files w' = Ok law_infos w') ->
  process_bulk_plaw_file py_str json_load server file w =
    for_each (process_law_info py_str server) law_infos
      (World (fs w) (calls w)
         (log w ++ [(INFO, "Processing bulk_plaw_file " +:+ file
                           +:+ " for congress " +:+ congress)])).
Proof.
  intros Hdecode Hdata Hload Hfiles Hiter.
  unfold process_bulk_plaw_file, bind. rewrite Hdecode.
  unfold logger, read_file. cbn [fs calls log]. rewrite Hdata, Hload.
  by rewrite Hfiles, Hiter.
Qed.
End Stages.

(** ** The document stage only adds to the document cache *)

Lemma cache_grows_refl files : cache_grows files files.
Proof. intros path. by left. Qed.

Lemma cache_grows_trans f1 f2 f3 :
  cache_grows f1 f2 -> cache_grows f2 f3 -> cache_grows f1 f3.
Proof.
  intros H12 H23 path.
  destruct (H12 path) as [H1 | [H1 Hname]], (H23 path) as [H2 | [H2 Hname']].
  - left. congruence.
  - right. split; [congruence | exact Hname'].
  - right. split; [exact H1 | exact Hname].
  - right. split; [exact H1 | exact Hname].
Qed.

Lemma cache_grows_insert files name data :
  files !! (individual_law_data_dir +:+ name) = None ->
  cache_grows files (<[individual_law_data_dir +:+ name := data]> files).
Proof.
  intros Hnone path.
  destruct (decide (individual_law_data_dir +:+ name = path)) as [<- | Hne].
  - right. split; [done | by eexists].
  - left. by apply lookup_insert_ne.
Qed.

Lemma cache_grows_keeps files files' : cache_grows files files' -> keeps files files'.
Proof.
  intros Hgrows path data Hdata _.
  destruct (Hgrows path) as [H | [H _]]; congruence.
Qed.

Lemma keeps_trans f1 f2 f3 : keeps f1 f2 -> keeps f2 f3 -> keeps f1 f3.
Proof. intros H12 H23 path data Hdata Hout. eauto. Qed.

(** The bulk directory is not touched. *)
Lemma cache_grows_bulk files files' name :
  cache_grows files files' ->
  files' !! (bulk_data_dir +:+ name) = files !! (bulk_data_dir +:+ name).
Proof.
  intros Hgrows. destruct (Hgrows (bulk_data_dir +:+ name))
    as [H | [_ [name' H]]]; [done|].
  by apply bulk_not_individual in H.
Qed.

Section DocumentStage.
Variable py_str : json -> string.
Variable json_load : string -> option json.
Variable server : list string -> string -> option response.

Lemma subscript_cases (v : json) (key : string) :
  (exists x, forall w, subscript v key w = Ok x w)
  \/ (exists e, forall w, subscript v key w = Raise e w).
Proof.
  destruct v; cbn; try (right; by eexists).
  destruct (assoc key fields); [left | right]; by eexists.
Qed.

Lemma py_iter_cases (v : json) :
  (exists xs, forall w, py_iter v w = Ok xs w)
  \/ (exists e, forall w, py_iter v w = Raise e w).
Proof. destruct v; cbn; (by left; eexists) || (by right; eexists). Qed.

Lemma decode_congress_cases (file : string) :
  (exists congress, forall w, decode_congress file w = Ok congress w)
  \/ (exists e, forall w, decode_congress file w = Raise e w).
Proof.
  unfold decode_congress.
  destruct (PyStr.split "_" file !! 1%nat) as [part|]; [|right; by eexists].
  destruct (PyStr.split "." part !! 0%nat); [left | right]; by eexists.
Qed.

(** Every way through [process_law_info], by the shape of the entry and the
    state of the cache. *)
Lemma process_law_info_cases (law_info : json) (w : world) :
  (exists e, process_law_info py_str server law_info w = Raise e w)
  \/ (exists fields name,
        law_info = JObj fields /\ assoc "name" fields = Some name
        /\ ((is_Some (fs w !! cache_path py_str name)
             /\ exists record,
                  process_law_info py_str server law_info w =
                    Ok tt (World (fs w) (calls w) (log w ++ [(INFO, record)])))
            \/ (fs w !! cache_path py_str name = None
                /\ exists w', (exists e, process_law_info py_str server law_info w = Raise e w')
                              /\ fs w' = fs w)
            \/ (fs w !! cache_path py_str name = None
                /\ exists url record,
                     assoc "link" fields = Some (JStr url)
                     /\ PyStr.endswith url ".xml" = false
                     /\ process_law_info py_str server law_info w =
                          Ok tt (World (fs w) (calls w)
                                   (log w ++ [(INFO, record)])))
            \/ (fs w !! cache_path py_str name = None
                /\ exists url r record,
                     assoc "link" fields = Some (JStr url)
                     /\ PyStr.endswith url ".xml" = true
                     /\ server (calls w) url = Some r
                     /\ status_code r = 200
                     /\ process_law_info py_str server law_info w =
                          Ok tt (World (<[cache_path py_str name := body r]> (fs w))
                                   (calls w ++ [url])
                                   (log w ++ [(INFO, record)]))))).
Proof.
  destruct law_info as [| | | | |fields]; try (left; by eexists).
  destruct (assoc "name" fields) as [name|] eqn:Hname.
  2:{ left. unfold process_law_info, bind, subscript. rewrite Hname. by eexists. }
  right. exists fields, name. split; [done|]. split; [done|].
  destruct (fs w !! cache_path py_str name) as [data|] eqn:Hcached.
  { left. split; [by eexists|]. eexists.
    apply (law_info_cached py_str server fields name w Hname).
    by rewrite Hcached. }
  right.
  assert (Hmiss : bool_decide (is_Some (fs w !! cache_path py_str name)) = false).
  { apply bool_decide_eq_false_2. rewrite Hcached. by intros [? ?]. }
  destruct (assoc "link" fields) as [link|] eqn:Hlink.
  2:{ left. split; [done|]. exists w. split; [|done]. eexists.
      unfold process_law_info, bind, subscript, path_exists, ret.
      rewrite Hname. fold (cache_path py_str name). by rewrite Hmiss, Hlink. }
  destruct link as [| | |url| |];
    try (left; split; [done|]; exists w; split; [|done]; eexists;
         unfold process_law_info, bind, subscript, path_exists, ret;
         rewrite Hname; fold (cache_path py_str name);
         by rewrite Hmiss, Hlink).
  destruct (PyStr.endswith url ".xml") eqn:Hext.
  2:{ right. left. split; [done|]. eexists url, _. repeat split; [done|].
      apply (law_info_not_xml py_str server fields name url w
               Hname Hcached Hlink Hext). }
  destruct (server (calls w) url) as [r|] eqn:Hserver.
  2:{ left. split; [done|]. eexists. split.
      - eexists.
        unfold process_law_info, bind, subscript, path_exists, ret.
        rewrite Hname. fold (cache_path py_str name).
        rewrite Hmiss, Hlink, Hext.
        cbn [negb]. unfold logger, call_api. cbn [fs calls log].
        by rewrite Hserver.
      - reflexivity. }
  assert (Hstep := law_info_fetched py_str server fields name url r w
                     Hname Hcached Hlink Hext Hserver).
  cbn zeta in Hstep. destruct (status_code r =? 200)%Z eqn:Hstatus.
  - right. right. split; [done|]. eexists url, r, _.
    apply Z.eqb_eq in Hstatus. by repeat split.
  - left. split; [done|]. eexists. split; [by eexists | reflexivity].
Qed.

Lemma cache_path_not_processed (name : json) (name' : string) :
  cache_path py_str name <> processed_dir +:+ name'.
Proof. apply individual_not_processed. Qed.

(** An entry adds at most its own document to the cache. *)
Lemma process_law_info_grows (law_info : json) (w : world) :
  cache_grows (fs w) (fs (final (process_law_info py_str server law_info w))).
Proof.
  destruct (process_law_info_cases law_info w)
    as [[e ->] | (fields & name & -> & Hname &
                  [[_ [record ->]]
                  | [[_ (w' & [e ->] & Hfs)]
                  | [[_ (url & record & _ & _ & ->)]
                  | [Hnone (url & r & record & _ & _ & _ & _ & ->)]]]])];
    cbn [final fs]; try apply cache_grows_refl.
  - rewrite Hfs. apply cache_grows_refl.
  - by apply cache_grows_insert.
Qed.

(** An entry that went through is settled. *)
Lemma process_law_info_settles (law_info : json) (w w' : world) :
  process_law_info py_str server law_info w = Ok tt w' ->
  entry_settled py_str (fs w') law_info.
Proof.
  intros Hok.
  destruct (process_law_info_cases law_info w)
    as [[e He] | (fields & name & -> & Hname &
                  [[Hsome [record Hstep]]
                  | [[_ (w1 & [e He] & _)]
                  | [[_ (url & record & Hlink & Hext & Hstep)]
                  | [_ (url & r & record & _ & _ & _ & _ & Hstep)]]]])];
    try congruence; rewrite Hstep in Hok; injection Hok as <-;
    exists fields, name; (split; [done|]); (split; [done|]); cbn [fs].
  - by left.
  - right. by exists url.
  - left. rewrite lookup_insert_eq. by eexists.
Qed.

Lemma entry_settled_keeps (files files' : gmap string string) (law_info : json) :
  keeps files files' ->
  entry_settled py_str files law_info ->
  entry_settled py_str files' law_info.
Proof.
  intros Hkeeps (fields & name & -> & Hname & [[data Hdata] | Hlink]);
    exists fields, name; (split; [done|]); (split; [done|]); [left | by right].
  exists data. apply (Hkeeps _ _ Hdata). apply cache_path_not_processed.
Qed.

(** A settled entry is skipped: one INFO record, nothing else. *)
Lemma entry_settled_skipped (law_info : json) (w : world) :
  entry_settled py_str (fs w) law_info ->
  exists record,
    process_law_info py_str server law_info w =
      Ok tt (World (fs w) (calls w) (log w ++ [(INFO, record)])).
Proof.
  intros (fields & name & -> & Hname & [Hsome | (url & Hlink & Hext)]).
  - eexists. by apply law_info_cached.
  - destruct (fs w !! cache_path py_str name) as [data|] eqn:Hcached.
    + eexists. apply law_info_cached; [done | by rewrite Hcached].
    + eexists. by apply (law_info_not_xml py_str server fields name url).
Qed.

(** The loop over the entries of a manifest. *)
Lemma law_infos_grow (law_infos : list json) (w : world) :
  cache_grows (fs w)
    (fs (final (for_each (process_law_info py_str server) law_infos w))).
Proof.
  apply (for_each_related _ cache_grows cache_grows_refl cache_grows_trans
           process_law_info_grows).
Qed.

Lemma law_infos_settle (law_infos : list json) (w w' : world) :
  for_each (process_law_info py_str server) law_infos w = Ok tt w' ->
  Forall (entry_settled py_str (fs w')) law_infos.
Proof.
  apply (for_each_settles _ cache_grows (entry_settled py_str)
           cache_grows_refl cache_grows_trans process_law_info_grows
           process_law_info_settles).
  intros f f' x Hgrows. apply entry_settled_keeps. by apply cache_grows_keeps.
Qed.

Lemma law_infos_skipped (law_infos : list json) (w : world) :
  Forall (entry_settled py_str (fs w)) law_infos ->
  exists w',
    for_each (process_law_info py_str server) law_infos w = Ok tt w'
    /\ same_state w' w.
Proof.
  apply for_each_skips. intros x w0 Hx.
  destruct (entry_settled_skipped x w0 Hx) as [record Hstep].
  eexists. split; [exact Hstep | by split].
Qed.

(** One manifest. *)
Lemma manifest_grows (file : string) (w : world) :
  cache_grows (fs w)
    (fs (final (process_bulk_plaw_file py_str json_load server file w))).
Proof.
  unfold process_bulk_plaw_file, bind.
  destruct (decode_congress_cases file) as [[congress ->] | [e ->]];
    [|apply cache_grows_refl].
  unfold logger, read_file. cbn [fs calls log].
  destruct (fs w !! (bulk_data_dir +:+ file)) as [data|];
    [|apply cache_grows_refl].
  destruct (json_load data) as [bulk_data|]; [|apply cache_grows_refl].
  destruct (subscript_cases bulk_data "files") as [[law_files ->] | [e ->]];
    [|apply cache_grows_refl].
  destruct (py_iter_cases law_files) as [[law_infos ->] | [e ->]];
    [|apply cache_grows_refl].
  apply (law_infos_grow law_infos (World (fs w) (calls w) _)).
Qed.

Lemma manifest_settles (file : string) (w w' : world) :
  process_bulk_plaw_file py_str json_load server file w = Ok tt w' ->
  manifest_settled py_str json_load (fs w') file.
Proof.
  intros Hok. assert (Hgrows := manifest_grows file w).
  rewrite Hok in Hgrows. cbn [final] in Hgrows.
  revert Hok. unfold process_bulk_plaw_file, bind.
  destruct (decode_congress_cases file) as [[congress Hdecode] | [e ->]];
    [rewrite Hdecode|done].
  unfold logger, read_file. cbn [fs calls log].
  destruct (fs w !! (bulk_data_dir +:+ file)) as [data|] eqn:Hdata; [|done].
  destruct (json_load data) as [bulk_data|] eqn:Hload; [|done].
  destruct (subscript_cases bulk_data "files") as [[law_files Hfiles] | [e ->]];
    [rewrite Hfiles|done].
  destruct (py_iter_cases law_files) as [[law_infos Hiter] | [e ->]];
    [rewrite Hiter|done].
  intros Hloop. exists congress, data, bulk_data, law_files, law_infos.
  repeat split; try done.
  - by rewrite (cache_grows_bulk _ _ file Hgrows).
  - by eapply law_infos_settle.
Qed.

Lemma manifest_settled_keeps (files files' : gmap string string) (file : string) :
  keeps files files' ->
  manifest_settled py_str json_load files file ->
  manifest_settled py_str json_load files' file.
Proof.
  intros Hkeeps (congress & data & bulk_data & law_files & law_infos
                 & Hdecode & Hdata & Hload & Hfiles & Hiter & Hall).
  exists congress, data, bulk_data, law_files, law_infos.
  repeat split; try done.
  - apply (Hkeeps _ _ Hdata). apply bulk_not_processed.
  - eapply Forall_impl; [exact Hall|].
    intros x. by apply entry_settled_keeps.
Qed.

(** A settled manifest is gone through without a fetch or a write. *)
Lemma manifest_settled_skipped (file : string) (w : world) :
  manifest_settled py_str json_load (fs w) file ->
  exists w',
    process_bulk_plaw_file py_str json_load server file w = Ok tt w'
    /\ same_state w' w.
Proof.
  intros (congress & data & bulk_data & law_files & law_infos
          & Hdecode & Hdata & Hload & Hfiles & Hiter & Hall).
  rewrite (process_bulk_plaw_file_entries py_str json_load server file
             congress data bulk_data law_files law_infos w
             (Hdecode w) Hdata Hload Hfiles Hiter).
  destruct (law_infos_skipped law_infos (World (fs w) (calls w)
              (log w ++ [(INFO, "Processing bulk_plaw_file " +:+ file
                                +:+ " for congress " +:+ congress)])) Hall)
    as (w' & Hloop & Hsame).
  exists w'. split; [exact Hloop|]. exact Hsame.
Qed.

(** The loop over the cached manifests. *)
Lemma manifests_grow (files : list string) (w : world) :
  cache_grows (fs w)
    (fs (final (for_each (process_bulk_plaw_file py_str json_load server)
                  files w))).
Proof.
  apply (for_each_related _ cache_grows cache_grows_refl cache_grows_trans
           manifest_grows).
Qed.

Lemma manifests_settle (files : list string) (w w' : world) :
  for_each (process_bulk_plaw_file py_str json_load server) files w = Ok tt w' ->
  Forall (manifest_settled py_str json_load (fs w')) files.
Proof.
  apply (for_each_settles _ cache_grows (manifest_settled py_str json_load)
           cache_grows_refl cache_grows_trans manifest_grows
           manifest_settles).
  intros f f' x Hgrows. apply manifest_settled_keeps.
  by apply cache_grows_keeps.
Qed.

Lemma manifests_skipped (files : list string) (w : world) :
  Forall (manifest_settled py_str json_load (fs w)) files ->
  exists w',
    for_each (process_bulk_plaw_file py_str json_load server) files w = Ok tt w'
    /\ same_state w' w.
Proof. apply for_each_skips. apply manifest_settled_skipped. Qed.
End DocumentStage.

(** ** The manifest stage *)

Section ManifestStage.
Variable server : list string -> string -> option response.

Lemma persists_refl files : persists files files.
Proof. by intros path. Qed.

Lemma persists_trans f1 f2 f3 : persists f1 f2 -> persists f2 f3 -> persists f1 f3.
Proof. intros H12 H23 path H. auto. Qed.

Lemma get_bulk_public_law_cases (congress : nat) (w : world) :
  (is_Some (fs w !! plaw_json congress)
   /\ exists record,
        get_bulk_public_law server congress w =
          Ok tt (World (fs w) (calls w) (log w ++ [(INFO, record)])))
  \/ (exists e w', get_bulk_public_law server congress w = Raise e w'
                   /\ fs w' = fs w)
  \/ (exists data w', get_bulk_public_law server congress w = Ok tt w'
                      /\ fs w' = <[plaw_json congress := data]> (fs w)).
Proof.
  destruct (fs w !! plaw_json congress) as [data|] eqn:Hcached.
  { left. split; [by eexists|]. eexists. apply congress_cached.
    by rewrite Hcached. }
  right.
  destruct (server (calls w) (bulk_data_endpoint congress)) as [r|] eqn:Hserver.
  - assert (Hstep := congress_fetched server congress r w Hcached Hserver).
    cbn zeta in Hstep. destruct (status_code r =? 200)%Z.
    + right. eexists _, _. split; [exact Hstep | reflexivity].
    + left. eexists _, _. split; [exact Hstep | reflexivity].
  - left. eexists _, _. split.
    + unfold get_bulk_public_law, bind, check_if_raw_data_exists, path_exists.
      rewrite bool_decide_eq_false_2 by (rewrite Hcached; by intros [? ?]).
      unfold logger, call_api. cbn [fs calls log]. by rewrite Hserver.
    + reflexivity.
Qed.

Lemma get_bulk_public_law_persists (congress : nat) (w : world) :
  persists (fs w) (fs (final (get_bulk_public_law server congress w))).
Proof.
  destruct (get_bulk_public_law_cases congress w)
    as [[_ [record ->]] | [(e & w' & -> & Hfs) | (data & w' & -> & Hfs)]];
    cbn [final fs]; rewrite ?Hfs; try apply persists_refl.
  intros path Hsome.
  destruct (decide (plaw_json congress = path)) as [<- | Hne].
  - rewrite lookup_insert_eq. by eexists.
  - by rewrite lookup_insert_ne.
Qed.

Lemma get_bulk_public_law_settles (congress : nat) (w w' : world) :
  get_bulk_public_law server congress w = Ok tt w' ->
  is_Some (fs w' !! plaw_json congress).
Proof.
  intros Hok.
  destruct (get_bulk_public_law_cases congress w)
    as [[Hsome [record Hstep]]
       | [(e & w1 & Hstep & Hfs) | (data & w1 & Hstep & Hfs)]];
    rewrite Hstep in Hok; [injection Hok as <- | done | injection Hok as <-].
  - done.
  - rewrite Hfs, lookup_insert_eq. by eexists.
Qed.

(** After the manifest stage every manifest is cached. *)
Lemma get_bulk_public_laws_settle (w w' : world) :
  get_bulk_public_laws server w = Ok tt w' ->
  Forall (fun congress => is_Some (fs w' !! plaw_json congress)) congresses.
Proof.
  apply (for_each_settles _ persists
           (fun files congress => is_Some (files !! plaw_json congress))
           persists_refl persists_trans get_bulk_public_law_persists
           get_bulk_public_law_settles).
  intros f f' congress Hpersists. apply Hpersists.
Qed.

(** With every manifest cached the stage fetches and writes nothing. *)
Lemma get_bulk_public_laws_skipped (w : world) :
  Forall (fun congress => is_Some (fs w !! plaw_json congress)) congresses ->
  exists w', get_bulk_public_laws server w = Ok tt w' /\ same_state w' w.
Proof.
  apply (for_each_skips _
           (fun files congress => is_Some (files !! plaw_json congress))).
  intros congress w0 Hsome. eexists.
  split; [by apply congress_cached | by split].
Qed.
End ManifestStage.

(** ** The extraction stage *)

Section ExtractionStage.
Variable upper : string -> string.
Variable isspace : ascii -> bool.
Variable xml_parse : string -> parsed.

Lemma extract_files_cons cache name names files :
  extract_files upper isspace xml_parse cache (name :: names) files =
    extract_files upper isspace xml_parse cache names
      match cache !! (individual_law_data_dir +:+ name) with
      | Some data =>
          match xml_parse data with
          | Tree root => <[txt_path name := extract upper isspace root]> files
          | _ => files
          end
      | None => files
      end.
Proof. reflexivity. Qed.

(** Only text files are written. *)
Lemma extract_files_other cache names files path :
  (forall name, path <> processed_dir +:+ name) ->
  extract_files upper isspace xml_parse cache names files !! path = files !! path.
Proof.
  intros Hout. revert files.
  induction names as [|name names IH]; intros files; [done|].
  rewrite extract_files_cons, IH.
  destruct (cache !! (individual_law_data_dir +:+ name)) as [data|]; [|done].
  destruct (xml_parse data) as [message|root|e]; [done| |done].
  apply lookup_insert_ne. rewrite txt_path_processed.
  intros H. exact (Hout _ (eq_sym H)).
Qed.

Lemma extract_files_keeps cache names files :
  keeps files (extract_files upper isspace xml_parse cache names files).
Proof.
  intros path data Hdata Hout. by rewrite extract_files_other.
Qed.

(** The texts written do not depend on the files they are written over. *)
Lemma extract_files_union cache names files :
  extract_files upper isspace xml_parse cache names files = extract_files upper isspace xml_parse cache names ∅ ∪ files.
Proof.
  revert files. induction names as [|name names IH]; intros files.
  - cbn. by rewrite (left_id_L ∅ (∪)).
  - rewrite !extract_files_cons.
    destruct (cache !! (individual_law_data_dir +:+ name)) as [data|]; [|apply IH].
    destruct (xml_parse data) as [message|root|e]; [apply IH| |apply IH].
    rewrite IH. rewrite (IH (<[_ := _]> ∅)).
    rewrite <- (assoc_L (∪)). f_equal.
    rewrite <- insert_union_l. by rewrite (left_id_L ∅ (∪)).
Qed.

(** Extracting a second time from the same documents changes nothing. *)
Lemma extract_files_twice cache names files :
  extract_files upper isspace xml_parse cache names (extract_files upper isspace xml_parse cache names files)
  = extract_files upper isspace xml_parse cache names files.
Proof.
  rewrite (extract_files_union cache names (extract_files upper isspace xml_parse cache names files)).
  rewrite (extract_files_union cache names files).
  rewrite (assoc_L (∪)). by rewrite (idemp_L (∪)).
Qed.

(** The loop of the stage, when every listed document is cached and
    parses. *)
Lemma extraction_of_parsed cache names (w : world) :
  (forall name, name ∈ names ->
     exists data root,
       cache !! (individual_law_data_dir +:+ name) = Some data
       /\ xml_parse data = Tree root) ->
  (forall name, fs w !! (individual_law_data_dir +:+ name)
                = cache !! (individual_law_data_dir +:+ name)) ->
  for_each (process_individual_law_file upper isspace xml_parse) names w =
    Ok tt (World (extract_files upper isspace xml_parse cache names (fs w)) (calls w) (log w)).
Proof.
  revert w. induction names as [|name names IH]; intros w Hparse Hcache.
  - by destruct w.
  - destruct (Hparse name) as (data & root & Hdata & Hroot);
      [apply list_elem_of_here|].
    cbn [for_each]. unfold bind.
    rewrite (process_parsed upper isspace xml_parse name data root w);
      [|by rewrite Hcache|done].
    rewrite IH.
    + cbn [fs calls log]. by rewrite extract_files_cons, Hdata, Hroot.
    + intros name' Hin. apply Hparse. by apply list_elem_of_further.
    + intros name'. cbn [fs]. rewrite lookup_insert_ne; [apply Hcache|].
      apply not_eq_sym, txt_path_not_cached'.
Qed.
End ExtractionStage.

(** The name of a path in the document cache. *)
Lemma individual_name_inj (name name' : string) :
  individual_law_data_dir +:+ name = individual_law_data_dir +:+ name' ->
  name = name'.
Proof. apply (inj (String.append individual_law_data_dir)). Qed.

(** * The claims *)

(** C1.  Truncation law.  Let a cached document parse, and let the first
    collected text that upper-cases to LEGISLATIVE HISTORY stand at
    position [i].  When [i] is not zero the file written holds exactly the
    texts before position [i], joined by line feeds, and nothing from the
    marker onward; when [i] is zero nothing is cut and every collected text
    is written. *)
Theorem C1_truncation_at_first_marker
    (upper : string -> string) (isspace : ascii -> bool)
    (xml_parse : string -> parsed)
    (file data : string) (root : Element) (w : world) (i : nat) (t : string) :
  fs w !! (individual_law_data_dir +:+ file) = Some data ->
  xml_parse data = Tree root ->
  inner_texts isspace root !! i = Some t ->
  upper t = LEGISLATIVE_HISTORY ->
  (forall j u, (j < i)%nat -> inner_texts isspace root !! j = Some u ->
               upper u <> LEGISLATIVE_HISTORY) ->
  process_individual_law_file upper isspace xml_parse file w =
    Ok tt (World
             (<[txt_path file :=
                  PyStr.join PyStr.newline
                    match i with
                    | O => inner_texts isspace root
                    | S _ => take i (inner_texts isspace root)
                    end]> (fs w))
             (calls w) (log w)).
Proof.
  intros Hdata Hparse Hi Ht Hbefore.
  rewrite (process_parsed upper isspace xml_parse file data root w Hdata Hparse).
  unfold extract.
  by rewrite (truncate_first upper _ i t Hi Ht Hbefore).
Qed.

Lemma C1_witness :
  process_individual_law_file Demo.upper Demo.isspace Demo.xml_parse
    Demo.law_file Demo.cached =
  Ok tt (World
           (<[txt_path Demo.law_file :=
                PyStr.join PyStr.newline
                  (take 2 (inner_texts Demo.isspace Demo.law_tree))]>
              (fs Demo.cached))
           [] []).
Proof.
  apply (C1_truncation_at_first_marker Demo.upper Demo.isspace Demo.xml_parse
           Demo.law_file Demo.law_xml Demo.law_tree Demo.cached 2
           "LEGISLATIVE HISTORY").
  - vm_compute. reflexivity.
  - vm_compute. reflexivity.
  - vm_compute. reflexivity.
  - vm_compute. reflexivity.
  - intros j u Hj Hu. destruct j as [|[|j]]; [| |lia];
      vm_compute in Hu; injection Hu as <-; vm_compute; discriminate.
Defined.

(** C2.  Exclusion and direct text.  A tag is ignored exactly when it is one
    of the listed names under one of the three namespaces.  The collected
    sequence is, in document order, the direct text of every element whose
    tag is not ignored and whose text is present and not whitespace-only:
    each such element contributes its text, and every collected text comes
    from such an element.  The text of an ignored element and every tail
    text leave no trace: erasing them changes neither the collected sequence
    nor the extracted output. *)
Theorem C2_exclusion_and_direct_text
    (upper : string -> string) (isspace : ascii -> bool) (root : Element) :
  (forall t, is_ignored t = true <-> administrative t)
  /\ inner_texts isspace root = omap (contribution isspace) (iter root)
  /\ (forall e t, e ∈ iter root -> ~ administrative (tag e) ->
                  text e = Some t -> PyStr.blank isspace t = false ->
                  t ∈ inner_texts isspace root)
  /\ (forall t, t ∈ inner_texts isspace root ->
                exists e, e ∈ iter root /\ ~ administrative (tag e) /\
                          text e = Some t /\ PyStr.blank isspace t = false)
  /\ inner_texts isspace (scrub root) = inner_texts isspace root
  /\ extract upper isspace (scrub root) = extract upper isspace root.
Proof.
  assert (Hscrub : inner_texts isspace (scrub root) = inner_texts isspace root).
  { rewrite !inner_texts_omap. apply omap_contribution_scrub. }
  split; [exact is_ignored_spec|].
  split; [apply inner_texts_omap|].
  split; [|split; [|split]].
  - intros e t He Hadm Ht Hb. rewrite inner_texts_omap.
    apply list_elem_of_omap. exists e. split; [done|].
    unfold contribution. rewrite Ht, Hb.
    destruct (is_ignored (tag e)) eqn:Hi; [|done].
    by apply is_ignored_spec in Hi.
  - intros t Ht. rewrite inner_texts_omap in Ht.
    apply list_elem_of_omap in Ht as (e & He & Hc). exists e.
    unfold contribution in Hc.
    destruct (is_ignored (tag e)) eqn:Hi; [done|].
    destruct (text e) as [x|]; [|done].
    destruct (PyStr.blank isspace x) eqn:Hb; [done|].
    injection Hc as ->. repeat split; [done| |done].
    intros Hadm. apply is_ignored_spec in Hadm. congruence.
  - exact Hscrub.
  - unfold extract. by rewrite Hscrub.
Qed.

Lemma C2_witness :
  "This Act may be cited..." ∈ inner_texts Demo.isspace Demo.law_tree
  /\ extract Demo.upper Demo.isspace (scrub Demo.law_tree)
     = extract Demo.upper Demo.isspace Demo.law_tree.
Proof.
  destruct (C2_exclusion_and_direct_text Demo.upper Demo.isspace Demo.law_tree)
    as (_ & _ & Hcollected & _ & _ & Hscrub).
  split; [|exact Hscrub].
  apply (Hcollected
           (Elem (Demo.in_uslm "content") (Some "This Act may be cited...")
                 (Some " ") [])).
  - do 3 apply list_elem_of_further. apply list_elem_of_here.
  - intros Hadm%is_ignored_spec. vm_compute in Hadm. discriminate Hadm.
  - reflexivity.
  - vm_compute. reflexivity.
Defined.

(** C5.  Malformed XML.  When the cached document does not parse, the
    extractor removes that cache file and touches no other file (so no text
    is written), logs the error, and returns normally; the loop over the
    documents goes on with the next one. *)
Theorem C5_malformed_document_is_removed
    (upper : string -> string) (isspace : ascii -> bool)
    (xml_parse : string -> parsed)
    (file data message : string) (rest : list string) (w : world) :
  fs w !! (individual_law_data_dir +:+ file) = Some data ->
  xml_parse data = ParseError message ->
  exists w',
    process_individual_law_file upper isspace xml_parse file w = Ok tt w'
    /\ fs w' = delete (individual_law_data_dir +:+ file) (fs w)
    /\ fs w' !! (individual_law_data_dir +:+ file) = None
    /\ fs w' !! txt_path file = fs w !! txt_path file
    /\ calls w' = calls w
    /\ (exists record, log w' = log w ++ [(ERROR, record)])
    /\ for_each (process_individual_law_file upper isspace xml_parse)
                (file :: rest) w
       = for_each (process_individual_law_file upper isspace xml_parse)
                  rest w'.
Proof.
  intros Hdata Hparse. eexists. split.
  { exact (process_malformed upper isspace xml_parse file data message w
             Hdata Hparse). }
  cbn [fs calls log]. repeat split.
  - apply lookup_delete_eq.
  - apply lookup_delete_ne. apply txt_path_not_cached.
  - by eexists.
  - cbn [for_each]. unfold bind at 1.
    by rewrite (process_malformed upper isspace xml_parse file data message w
                  Hdata Hparse).
Qed.

Lemma C5_witness :
  exists w',
    process_individual_law_file Demo.upper Demo.isspace Demo.xml_parse
      Demo.law_file Demo.cached_broken = Ok tt w'
    /\ fs w' = delete (individual_law_data_dir +:+ Demo.law_file)
                      (fs Demo.cached_broken)
    /\ fs w' !! (individual_law_data_dir +:+ Demo.law_file) = None
    /\ fs w' !! txt_path Demo.law_file
       = fs Demo.cached_broken !! txt_path Demo.law_file
    /\ calls w' = calls Demo.cached_broken
    /\ (exists record, log w' = log Demo.cached_broken ++ [(ERROR, record)])
    /\ for_each (process_individual_law_file Demo.upper Demo.isspace
                   Demo.xml_parse) [Demo.law_file] Demo.cached_broken
       = for_each (process_individual_law_file Demo.upper Demo.isspace
                     Demo.xml_parse) [] w'.
Proof.
  apply (C5_malformed_document_is_removed Demo.upper Demo.isspace
           Demo.xml_parse Demo.law_file Demo.broken_xml
           "no element found: line 1, column 33" [] Demo.cached_broken).
  - vm_compute. reflexivity.
  - vm_compute. reflexivity.
Defined.

(** C8.  Join and persist.  For a cached document that parses, the
    extractor writes, under the text path of the document, the texts that
    survive the truncation joined by single line feeds.  In particular,
    when the collected texts are SEC. 1., This Act may be cited...,
    LEGISLATIVE HISTORY, House Reports: No. 1 (and upper-casing acts on
    ASCII text as it does in Python), the text written is the first two,
    one line feed between them. *)
Theorem C8_join_and_persist
    (upper : string -> string) (isspace : ascii -> bool)
    (xml_parse : string -> parsed)
    (file data : string) (root : Element) (w : world) :
  fs w !! (individual_law_data_dir +:+ file) = Some data ->
  xml_parse data = Tree root ->
  process_individual_law_file upper isspace xml_parse file w =
    Ok tt (World
             (<[txt_path file :=
                  PyStr.join PyStr.newline
                    (truncate upper (inner_texts isspace root))]> (fs w))
             (calls w) (log w))
  /\ ((forall s, PyStr.is_ascii s = true -> upper s = PyStr.ascii_upper s) ->
      inner_texts isspace root =
        ["SEC. 1."; "This Act may be cited..."; "LEGISLATIVE HISTORY";
         "House Reports: No. 1"] ->
      PyStr.join PyStr.newline (truncate upper (inner_texts isspace root))
      = "SEC. 1." +:+ PyStr.newline +:+ "This Act may be cited...").
Proof.
  intros Hdata Hparse. split.
  - exact (process_parsed upper isspace xml_parse file data root w Hdata Hparse).
  - intros Hupper ->. unfold truncate. cbn [find_legislative_history].
    rewrite !Hupper by reflexivity. reflexivity.
Qed.

Lemma C8_witness :
  process_individual_law_file Demo.upper Demo.isspace Demo.xml_parse
    Demo.law_file Demo.cached =
    Ok tt (World
             (<[txt_path Demo.law_file :=
                  PyStr.join PyStr.newline
                    (truncate Demo.upper
                       (inner_texts Demo.isspace Demo.law_tree))]>
                (fs Demo.cached))
             (calls Demo.cached) (log Demo.cached))
  /\ PyStr.join PyStr.newline
       (truncate Demo.upper (inner_texts Demo.isspace Demo.law_tree))
     = "SEC. 1." +:+ PyStr.newline +:+ "This Act may be cited...".
Proof.
  destruct (C8_join_and_persist Demo.upper Demo.isspace Demo.xml_parse
              Demo.law_file Demo.law_xml Demo.law_tree Demo.cached)
    as [Hwritten Hscenario].
  - vm_compute. reflexivity.
  - vm_compute. reflexivity.
  - split; [exact Hwritten|]. apply Hscenario.
    + intros s _. reflexivity.
    + vm_compute. reflexivity.
Defined.

(** C4.  Entries that are not XML.  For a manifest entry whose link does not
    end in .xml, processing the entry fetches nothing and leaves every file
    as it was: the one effect is an INFO record in the log.  The other
    entries are not affected: the rest of the manifest ends the same way,
    with the same files and the same fetches, as it would without the
    entry. *)
Theorem C4_non_xml_entry_is_skipped
    (py_str : json -> string)
    (server : list string -> string -> option response)
    (fields : list (string * json)) (name : json) (url : string)
    (rest : list json) (w : world) :
  assoc "name" fields = Some name ->
  assoc "link" fields = Some (JStr url) ->
  PyStr.endswith url ".xml" = false ->
  exists w',
    process_law_info py_str server (JObj fields) w = Ok tt w'
    /\ fs w' = fs w
    /\ calls w' = calls w
    /\ (exists record, log w' = log w ++ [(INFO, record)])
    /\ for_each (process_law_info py_str server) (JObj fields :: rest) w
       = for_each (process_law_info py_str server) rest w'
    /\ same_outcome
         (for_each (process_law_info py_str server) (JObj fields :: rest) w)
         (for_each (process_law_info py_str server) rest w).
Proof.
  intros Hname Hlink Hext.
  assert (exists record,
            process_law_info py_str server (JObj fields) w =
              Ok tt (World (fs w) (calls w) (log w ++ [(INFO, record)])))
    as [record Hstep].
  { destruct (fs w !! cache_path py_str name) eqn:Hcached.
    - eexists. apply (law_info_cached py_str server fields name w Hname).
      by rewrite Hcached.
    - eexists.
      apply (law_info_not_xml py_str server fields name url w
               Hname Hcached Hlink Hext). }
  eexists. split; [exact Hstep|]. cbn [fs calls log].
  assert (Hloop :
    for_each (process_law_info py_str server) (JObj fields :: rest) w
    = for_each (process_law_info py_str server) rest
        (World (fs w) (calls w) (log w ++ [(INFO, record)]))).
  { cbn [for_each]. unfold bind. by rewrite Hstep. }
  repeat split; [by eexists | exact Hloop |].
  rewrite Hloop.
  apply log_blind_for_each; [apply log_blind_process_law_info | by split].
Qed.

Lemma C4_witness :
  exists w',
    process_law_info Demo.py_str Demo.server Demo.report_entry Demo.fresh
      = Ok tt w'
    /\ fs w' = fs Demo.fresh
    /\ calls w' = calls Demo.fresh
    /\ (exists record, log w' = log Demo.fresh ++ [(INFO, record)])
    /\ for_each (process_law_info Demo.py_str Demo.server)
         [Demo.report_entry; Demo.law_entry] Demo.fresh
       = for_each (process_law_info Demo.py_str Demo.server)
           [Demo.law_entry] w'
    /\ same_outcome
         (for_each (process_law_info Demo.py_str Demo.server)
            [Demo.report_entry; Demo.law_entry] Demo.fresh)
         (for_each (process_law_info Demo.py_str Demo.server)
            [Demo.law_entry] Demo.fresh).
Proof.
  apply (C4_non_xml_entry_is_skipped Demo.py_str Demo.server
           [("name", JStr "report.pdf"); ("link", JStr Demo.report_url)]
           (JStr "report.pdf") Demo.report_url [Demo.law_entry] Demo.fresh).
  - reflexivity.
  - reflexivity.
  - reflexivity.
Defined.

(** C6.  Fetch status.  In the manifest stage and in the document stage
    alike: when the fetch answers 200, the body of the answer is written,
    as it is, to the cache path (of the congress; of the entry, whose name
    is taken to be a plain file name, so that the path lies directly in
    the directory the stage has made); when it answers anything else, the
    step raises an exception with no file written, and the loop it runs in
    ends with that exception, the later items never processed.  An
    exception in either stage ends [main]. *)
Theorem C6_fetch_status_decides
    (upper : string -> string) (isspace : ascii -> bool)
    (py_str : json -> string) (json_load : string -> option json)
    (xml_parse : string -> parsed)
    (server : list string -> string -> option response) :
  (forall (congress : nat) (r : response) (w : world),
      fs w !! plaw_json congress = None ->
      server (calls w) (bulk_data_endpoint congress) = Some r ->
      (status_code r = 200 ->
       exists w',
         get_bulk_public_law server congress w = Ok tt w'
         /\ fs w' = <[plaw_json congress := body r]> (fs w))
      /\ (status_code r <> 200 ->
          exists e w',
            get_bulk_public_law server congress w = Raise e w'
            /\ fs w' = fs w
            /\ forall before after w0,
                 for_each (get_bulk_public_law server) before w0 = Ok tt w ->
                 for_each (get_bulk_public_law server)
                   (before ++ congress :: after) w0 = Raise e w'))
  /\ (forall (fields : list (string * json)) (name : json) (url : string)
             (r : response) (w : world),
      assoc "name" fields = Some name ->
      fs w !! cache_path py_str name = None ->
      assoc "link" fields = Some (JStr url) ->
      PyStr.endswith url ".xml" = true ->
      server (calls w) url = Some r ->
      (status_code r = 200 ->
       plain_name (format_value py_str name) = true ->
       exists w',
         process_law_info py_str server (JObj fields) w = Ok tt w'
         /\ fs w' = <[cache_path py_str name := body r]> (fs w))
      /\ (status_code r <> 200 ->
          exists e w',
            process_law_info py_str server (JObj fields) w = Raise e w'
            /\ fs w' = fs w
            /\ forall before after w0,
                 for_each (process_law_info py_str server) before w0
                   = Ok tt w ->
                 for_each (process_law_info py_str server)
                   (before ++ JObj fields :: after) w0 = Raise e w'))
  /\ (forall w e w',
        get_bulk_public_laws server (greeted w) = Raise e w' ->
        main upper isspace py_str json_load xml_parse server w = Raise e w')
  /\ (forall w w1 e w',
        get_bulk_public_laws server (greeted w) = Ok tt w1 ->
        get_individual_laws py_str json_load server w1 = Raise e w' ->
        main upper isspace py_str json_load xml_parse server w = Raise e w').
Proof.
  split; [|split; [|split]].
  - intros congress r w Hnone Hserver.
    assert (Hstep := congress_fetched server congress r w Hnone Hserver).
    cbn zeta in Hstep. split.
    + intros H200. rewrite H200 in Hstep. eexists.
      split; [exact Hstep | reflexivity].
    + intros Hnot. apply Z.eqb_neq in Hnot. rewrite Hnot in Hstep.
      eexists _, _. split; [exact Hstep|]. split; [reflexivity|].
      intros before after w0 Hbefore.
      by apply (for_each_raise _ before after congress w0 w).
  - intros fields name url r w Hname Hnone Hlink Hext Hserver.
    assert (Hstep := law_info_fetched py_str server fields name url r w
                       Hname Hnone Hlink Hext Hserver).
    cbn zeta in Hstep. split.
    + intros H200 _. rewrite H200 in Hstep. eexists.
      split; [exact Hstep | reflexivity].
    + intros Hnot. apply Z.eqb_neq in Hnot. rewrite Hnot in Hstep.
      eexists _, _. split; [exact Hstep|]. split; [reflexivity|].
      intros before after w0 Hbefore.
      by apply (for_each_raise _ before after (JObj fields) w0 w).
  - intros w e w' Hraise. by rewrite main_stages, Hraise.
  - intros w w1 e w' Hfirst Hraise. by rewrite main_stages, Hfirst, Hraise.
Qed.

Lemma C6_witness :
  (exists w',
     get_bulk_public_law Demo.server 115 Demo.fresh = Ok tt w'
     /\ fs w' = <[plaw_json 115 := Demo.manifest_115]> (fs Demo.fresh))
  /\ (exists e w',
        get_bulk_public_law Demo.server_down 115 Demo.fresh = Raise e w'
        /\ fs w' = fs Demo.fresh)
  /\ (exists w',
        process_law_info Demo.py_str Demo.server Demo.law_entry Demo.fresh
          = Ok tt w'
        /\ fs w' = <[cache_path Demo.py_str (JStr Demo.law_file)
                       := Demo.law_xml]> (fs Demo.fresh))
  /\ (exists e w',
        process_law_info Demo.py_str Demo.server_down Demo.law_entry
          Demo.fresh = Raise e w'
        /\ fs w' = fs Demo.fresh).
Proof.
  destruct (C6_fetch_status_decides Demo.upper Demo.isspace Demo.py_str
              Demo.json_load Demo.xml_parse Demo.server)
    as (Hmanifest & Hdocument & _ & _).
  destruct (C6_fetch_status_decides Demo.upper Demo.isspace Demo.py_str
              Demo.json_load Demo.xml_parse Demo.server_down)
    as (Hmanifest_down & Hdocument_down & _ & _).
  split; [|split; [|split]].
  - destruct (Hmanifest 115%nat (Response 200 Demo.manifest_115) Demo.fresh)
      as [Hok _]; [reflexivity | reflexivity |].
    apply Hok. reflexivity.
  - destruct (Hmanifest_down 115%nat (Response 503 "Service Unavailable")
                Demo.fresh) as [_ Hbad]; [reflexivity | reflexivity |].
    destruct Hbad as (e & w' & Hraise & Hfs & _); [discriminate|].
    by exists e, w'.
  - destruct (Hdocument
                [("name", JStr Demo.law_file); ("link", JStr Demo.law_url)]
                (JStr Demo.law_file) Demo.law_url
                (Response 200 Demo.law_xml) Demo.fresh)
      as [Hok _]; [reflexivity | reflexivity | reflexivity | reflexivity
                  | reflexivity |].
    apply Hok; reflexivity.
  - destruct (Hdocument_down
                [("name", JStr Demo.law_file); ("link", JStr Demo.law_url)]
                (JStr Demo.law_file) Demo.law_url
                (Response 503 "Service Unavailable") Demo.fresh)
      as [_ Hbad]; [reflexivity | reflexivity | reflexivity | reflexivity
                   | reflexivity |].
    destruct Hbad as (e & w' & Hraise & Hfs & _); [discriminate|].
    by exists e, w'.
Defined.

(** C9.  The text path.  The script calls [replace] on the whole path, and
    [replace] rewrites every occurrence of .xml, not the extension alone:
    a name with .xml inside it loses that occurrence too, and two cached
    documents can come to the same text path, the second overwriting the
    first. *)
Theorem C9_replace_rewrites_every_occurrence :
  txt_path "plaw115-1.xml" = "data/processed/plaw115-1.txt"
  /\ txt_path "a.xml.xml" = "data/processed/a.txt.txt"
  /\ txt_path "a.xml.xml" <> "data/processed/a.xml.txt"
  /\ txt_path "a.xml.xml" = txt_path "a.txt.xml"
  /\ txt_path "notes.xmlx" = "data/processed/notes.txtx".
Proof.
  split; [vm_compute; reflexivity|]. split; [vm_compute; reflexivity|].
  split; [intros H; vm_compute in H; discriminate H|].
  split; vm_compute; reflexivity.
Qed.

(** C10 as the claim states it fails: the manifest of the 114th congress
    lists the name with a PDF link and is skipped without a file; the
    manifest of the 115th congress, processed second, lists the same name
    and fetches it. *)
Lemma C10_counterexample :
  process_bulk_plaw_file Demo.py_str Demo.json_load Demo.server
    "plaw_114.json" Demo.listed_twice = Ok tt Demo.after_114
  /\ process_bulk_plaw_file Demo.py_str Demo.json_load Demo.server
       "plaw_115.json" Demo.after_114 = Ok tt Demo.after_115
  /\ assoc "name" [("name", JStr "plaw115-1.xml"); ("link", JStr Demo.law_pdf_url)]
     = assoc "name" [("name", JStr "plaw115-1.xml"); ("link", JStr Demo.law_url)]
  /\ calls Demo.listed_twice = []
  /\ calls Demo.after_114 = []
  /\ calls Demo.after_115 = [Demo.law_url].
Proof.
  split; [vm_compute; reflexivity|]. split; [vm_compute; reflexivity|].
  split; [vm_compute; reflexivity|]. split; [vm_compute; reflexivity|].
  split; vm_compute; reflexivity.
Qed.

(** C10, amended.  The document stage keys its cache by the name of the
    entry alone.  Two cached manifests with the same contents are processed
    with the same outcome, the same files and the same fetches, whatever
    congress their file names decode to.  A fetched entry is written to the
    cache path of its name, from the URL of its link.  The document stage
    never removes a cached file.  So once an entry with an XML link has
    been processed, every later entry with the same name, in whatever
    manifest, is skipped without a fetch and without a write. *)
Theorem C10_cache_keyed_by_name
    (py_str : json -> string) (json_load : string -> option json)
    (server : list string -> string -> option response) :
  (forall (file1 file2 congress1 congress2 data : string) (w : world),
      (forall w', decode_congress file1 w' = Ok congress1 w') ->
      (forall w', decode_congress file2 w' = Ok congress2 w') ->
      fs w !! (bulk_data_dir +:+ file1) = Some data ->
      fs w !! (bulk_data_dir +:+ file2) = Some data ->
      same_outcome
        (process_bulk_plaw_file py_str json_load server file1 w)
        (process_bulk_plaw_file py_str json_load server file2 w))
  /\ (forall (fields : list (string * json)) (name : json) (url : string)
             (w w' : world),
        assoc "name" fields = Some name ->
        assoc "link" fields = Some (JStr url) ->
        process_law_info py_str server (JObj fields) w = Ok tt w' ->
        same_state w' w
        \/ (exists data, fs w' = <[cache_path py_str name := data]> (fs w))
           /\ calls w' = calls w ++ [url])
  /\ (forall (files : list string) (w : world) (path : string),
        is_Some (fs w !! path) ->
        is_Some (fs (final (for_each
                              (process_bulk_plaw_file py_str json_load server)
                              files w)) !! path))
  /\ (forall (fields1 fields2 : list (string * json)) (name : json)
             (url : string) (w0 w1 w2 : world),
        assoc "name" fields1 = Some name ->
        assoc "link" fields1 = Some (JStr url) ->
        PyStr.endswith url ".xml" = true ->
        assoc "name" fields2 = Some name ->
        process_law_info py_str server (JObj fields1) w0 = Ok tt w1 ->
        cache_grows (fs w1) (fs w2) ->
        exists record,
          process_law_info py_str server (JObj fields2) w2 =
            Ok tt (World (fs w2) (calls w2) (log w2 ++ [(INFO, record)]))).
Proof.
  split; [|split; [|split]].
  - intros file1 file2 congress1 congress2 data w Hdecode1 Hdecode2 Hdata1 Hdata2.
    unfold process_bulk_plaw_file, bind. rewrite Hdecode1, Hdecode2.
    unfold logger, read_file. cbn [fs calls log]. rewrite Hdata1, Hdata2.
    destruct (json_load data) as [bulk_data|]; [|split; [done | by split]].
    destruct (subscript_cases bulk_data "files") as [[law_files Hfiles] | [e He]];
      rewrite ?Hfiles, ?He; [|split; [done | by split]].
    destruct (py_iter_cases law_files) as [[law_infos Hiter] | [e He]];
      rewrite ?Hiter, ?He; [|split; [done | by split]].
    apply log_blind_for_each; [apply log_blind_process_law_info | by split].
  - intros fields name url w w' Hname Hlink Hok.
    destruct (process_law_info_cases py_str server (JObj fields) w)
      as [[e He] | (fields' & name' & [= <-] & Hname' &
                    [[_ [record Hstep]]
                    | [[_ (w1 & [e He] & _)]
                    | [[_ (url' & record & _ & _ & Hstep)]
                    | [_ (url' & r & record & Hlink' & _ & _ & _ & Hstep)]]]])];
      try congruence; rewrite Hstep in Hok; injection Hok as <-.
    + left. by split.
    + left. by split.
    + right. assert (name' = name) as -> by congruence.
      assert (url' = url) as -> by congruence.
      cbn [fs calls]. split; [by eexists | done].
  - intros files w path [data Hdata].
    assert (Hgrows := manifests_grow py_str json_load server files w).
    destruct (Hgrows path) as [H | [H _]]; [|congruence].
    rewrite H, Hdata. by eexists.
  - intros fields1 fields2 name url w0 w1 w2 Hname1 Hlink1 Hext Hname2 Hok Hgrows.
    apply (process_law_info_settles py_str server) in Hok
      as (fields & name' & [= <-] & Hname' & [[data Hdata] | (url' & Hlink' & Hext')]);
      [|congruence].
    assert (name' = name) as -> by congruence.
    eexists. apply (law_info_cached py_str server fields2 name w2 Hname2).
    exists data. apply (cache_grows_keeps _ _ Hgrows _ _ Hdata).
    apply cache_path_not_processed.
Qed.

Lemma C10_witness :
  exists record,
    process_law_info Demo.py_str Demo.server Demo.law_entry Demo.fetched =
      Ok tt (World (fs Demo.fetched) (calls Demo.fetched)
               (log Demo.fetched ++ [(INFO, record)])).
Proof.
  destruct (C10_cache_keyed_by_name Demo.py_str Demo.json_load Demo.server)
    as (_ & _ & _ & Hskip).
  apply (Hskip [("name", JStr Demo.law_file); ("link", JStr Demo.law_url)]
               [("name", JStr Demo.law_file); ("link", JStr Demo.law_url)]
               (JStr Demo.law_file) Demo.law_url
               Demo.fresh Demo.fetched Demo.fetched).
  - reflexivity.
  - reflexivity.
  - reflexivity.
  - reflexivity.
  - vm_compute. reflexivity.
  - apply cache_grows_refl.
Defined.

(** C7 as the claim states it fails.  Against a server that hands out a
    document that does not parse, the first run fetches the six manifests
    and the document, and its extraction stage removes the document; the
    second run finds the document missing and fetches it again.  And the
    extraction stage has no existence check: a text file that is already
    there is written over. *)
Lemma C7_counterexample :
  Demo.run_broken Demo.fresh = Ok tt Demo.first_run
  /\ Demo.run_broken Demo.first_run = Ok tt Demo.second_run
  /\ calls Demo.first_run
     = map bulk_data_endpoint congresses ++ [Demo.law_url]
  /\ calls Demo.second_run = calls Demo.first_run ++ [Demo.law_url]
  /\ fs Demo.stale !! txt_path Demo.law_file = Some "stale"
  /\ fs (final (process_individual_law_file Demo.upper Demo.isspace
                  Demo.xml_parse Demo.law_file Demo.stale))
       !! txt_path Demo.law_file
     = Some ("SEC. 1." +:+ PyStr.newline +:+ "This Act may be cited...").
Proof.
  split; [vm_compute; reflexivity|]. split; [vm_compute; reflexivity|].
  split; [vm_compute; reflexivity|]. split; [vm_compute; reflexivity|].
  split; vm_compute; reflexivity.
Qed.

(** C7, amended.  Take a run that completes; let the bulk directory and
    the document cache hold plain files only when its extraction stage
    starts, and let every document in the cache parse then (so that the
    stage removes none).  A second run right after it completes too,
    fetches nothing and
    leaves every file with the contents it had: the manifest stage and the
    document stage skip every item on the existence of its file; the
    extraction stage, which has no such check, extracts every document
    again and writes the same texts. *)
Theorem C7_second_run_changes_nothing
    (upper : string -> string) (isspace : ascii -> bool)
    (py_str : json -> string) (json_load : string -> option json)
    (xml_parse : string -> parsed)
    (server : list string -> string -> option response)
    (w wA wB w1 : world) :
  get_bulk_public_laws server (greeted w) = Ok tt wA ->
  get_individual_laws py_str json_load server wA = Ok tt wB ->
  process_individual_laws upper isspace xml_parse wB = Ok tt w1 ->
  flat bulk_data_dir (fs wB) ->
  flat individual_law_data_dir (fs wB) ->
  (forall name data,
      fs wB !! (individual_law_data_dir +:+ name) = Some data ->
      exists root, xml_parse data = Tree root) ->
  main upper isspace py_str json_load xml_parse server w = Ok tt w1
  /\ exists w2,
       main upper isspace py_str json_load xml_parse server w1 = Ok tt w2
       /\ fs w2 = fs w1
       /\ calls w2 = calls w1.
Proof.
  intros H1 H2 H3 _ _ Hparse.
  split; [by rewrite main_stages, H1, H2|].
  (* the first run, stage by stage *)
  unfold process_individual_laws, bind, listdir in H3.
  set (names3 := map fst (map_to_list
                            (entries individual_law_data_dir (fs wB)))) in *.
  assert (Hnames3 : forall name, name ∈ names3 ->
            exists data root,
              fs wB !! (individual_law_data_dir +:+ name) = Some data
              /\ xml_parse data = Tree root).
  { intros name [data Hdata]%elem_of_listing.
    destruct (Hparse name data Hdata) as [root Hroot]. by exists data, root. }
  rewrite (extraction_of_parsed upper isspace xml_parse (fs wB) names3 wB
             Hnames3 (fun _ => eq_refl)) in H3.
  injection H3 as <-.
  unfold get_individual_laws, bind, listdir in H2.
  set (names2 := map fst (map_to_list (entries bulk_data_dir (fs wA)))) in *.
  assert (Hsettled := manifests_settle py_str json_load server names2 wA wB H2).
  assert (Hgrows := manifests_grow py_str json_load server names2 wA).
  rewrite H2 in Hgrows. cbn [final] in Hgrows.
  assert (Hcached := get_bulk_public_laws_settle server (greeted w) wA H1).
  (* the second run *)
  rewrite main_stages.
  destruct (get_bulk_public_laws_skipped server
              (greeted (World (extract_files upper isspace xml_parse (fs wB)
                                 names3 (fs wB)) (calls wB) (log wB))))
    as (wA2 & -> & [HfsA HcallsA]).
  { eapply Forall_impl; [exact Hcached|]. intros congress [data Hdata].
    exists data. cbn [greeted fs].
    rewrite extract_files_other by apply bulk_not_processed.
    apply (cache_grows_keeps _ _ Hgrows _ _ Hdata), bulk_not_processed. }
  cbn [greeted fs calls] in HfsA, HcallsA.
  unfold get_individual_laws, bind, listdir.
  replace (entries bulk_data_dir (fs wA2)) with (entries bulk_data_dir (fs wA)).
  2:{ apply entries_ext. intros name. rewrite HfsA.
      rewrite extract_files_other by apply bulk_not_processed.
      symmetry. by apply cache_grows_bulk. }
  fold names2.
  destruct (manifests_skipped py_str json_load server names2 wA2)
    as (wB2 & -> & [HfsB HcallsB]).
  { eapply Forall_impl; [exact Hsettled|]. intros file.
    apply manifest_settled_keeps. rewrite HfsA. apply extract_files_keeps. }
  unfold process_individual_laws, bind, listdir.
  assert (Hsame : forall name,
            fs wB2 !! (individual_law_data_dir +:+ name)
            = fs wB !! (individual_law_data_dir +:+ name)).
  { intros name. rewrite HfsB, HfsA.
    apply extract_files_other, individual_not_processed. }
  replace (entries individual_law_data_dir (fs wB2))
    with (entries individual_law_data_dir (fs wB))
    by (apply entries_ext; intros name; by rewrite Hsame).
  fold names3.
  rewrite (extraction_of_parsed upper isspace xml_parse (fs wB) names3 wB2
             Hnames3 Hsame).
  eexists. split; [reflexivity|]. cbn [fs calls]. split.
  - rewrite HfsB, HfsA. apply extract_files_twice.
  - congruence.
Qed.

Lemma C7_witness :
  Demo.run Demo.fresh = Ok tt Demo.stage_3
  /\ exists w2,
       Demo.run Demo.stage_3 = Ok tt w2
       /\ fs w2 = fs Demo.stage_3
       /\ calls w2 = calls Demo.stage_3.
Proof.
  apply (C7_second_run_changes_nothing Demo.upper Demo.isspace Demo.py_str
           Demo.json_load Demo.xml_parse Demo.server
           Demo.fresh Demo.stage_1 Demo.stage_2 Demo.stage_3).
  - vm_compute. reflexivity.
  - vm_compute. reflexivity.
  - vm_compute. reflexivity.
  - intros name [data Hdata]. apply elem_of_map_to_list in Hdata.
    assert (Hfiles : map_to_list (fs Demo.stage_2)
                     = [ (individual_law_data_dir +:+ Demo.law_file, Demo.law_xml);
                         (plaw_json 117, Demo.manifest_empty);
                         (plaw_json 113, Demo.manifest_empty);
                         (plaw_json 115, Demo.manifest_115);
                         (plaw_json 116, Demo.manifest_empty);
                         (plaw_json 114, Demo.manifest_empty);
                         (plaw_json 118, Demo.manifest_empty) ])
      by (vm_compute; reflexivity).
    rewrite Hfiles in Hdata. clear Hfiles.
    repeat (apply elem_of_cons in Hdata as [Hdata | Hdata]);
      try (by apply elem_of_nil in Hdata);
      apply pair_equal_spec in Hdata as [Hpath _];
      try (exfalso; revert Hpath; apply bulk_not_individual);
      unfold plaw_json in Hpath;
      apply (inj (String.append bulk_data_dir)) in Hpath as ->;
      reflexivity.
  - intros name [data Hdata]. apply elem_of_map_to_list in Hdata.
    assert (Hfiles : map_to_list (fs Demo.stage_2)
                     = [ (individual_law_data_dir +:+ Demo.law_file, Demo.law_xml);
                         (plaw_json 117, Demo.manifest_empty);
                         (plaw_json 113, Demo.manifest_empty);
                         (plaw_json 115, Demo.manifest_115);
                         (plaw_json 116, Demo.manifest_empty);
                         (plaw_json 114, Demo.manifest_empty);
                         (plaw_json 118, Demo.manifest_empty) ])
      by (vm_compute; reflexivity).
    rewrite Hfiles in Hdata. clear Hfiles.
    repeat (apply elem_of_cons in Hdata as [Hdata | Hdata]);
      try (by apply elem_of_nil in Hdata);
      apply pair_equal_spec in Hdata as [Hpath _];
      try (exfalso; symmetry in Hpath; revert Hpath; unfold plaw_json;
           apply bulk_not_individual).
    apply individual_name_inj in Hpath as ->. reflexivity.
  - intros name data Hdata. apply elem_of_map_to_list in Hdata.
    assert (Hfiles : map_to_list (fs Demo.stage_2)
                     = [ (individual_law_data_dir +:+ Demo.law_file, Demo.law_xml);
                         (plaw_json 117, Demo.manifest_empty);
                         (plaw_json 113, Demo.manifest_empty);
                         (plaw_json 115, Demo.manifest_115);
                         (plaw_json 116, Demo.manifest_empty);
                         (plaw_json 114, Demo.manifest_empty);
                         (plaw_json 118, Demo.manifest_empty) ])
      by (vm_compute; reflexivity).
    rewrite Hfiles in Hdata. clear Hfiles.
    repeat (apply elem_of_cons in Hdata as [Hdata | Hdata]);
      try (by apply elem_of_nil in Hdata);
      apply pair_equal_spec in Hdata as [Hpath ->];
      try (exfalso; symmetry in Hpath; revert Hpath; unfold plaw_json;
           apply bulk_not_individual).
    exists Demo.law_tree. vm_compute. reflexivity.
Defined.

(** * Further properties of the script *)

(** ** Characters and pieces *)

Lemma split_without (sep : ascii) (s : string) :
  has_char sep s = false -> PyStr.split sep s = [s].
Proof.
  induction s as [|c s IH]; cbn; [done|].
  intros [Hc Hs]%orb_false_iff. rewrite Hc. by rewrite (IH Hs).
Qed.

Lemma split_at_first (sep : ascii) (a b : string) :
  has_char sep a = false ->
  PyStr.split sep (a +:+ String sep b) = a :: PyStr.split sep b.
Proof.
  induction a as [|c a IH].
  - intros _. change ("" +:+ String sep b) with (String sep b).
    cbn [PyStr.split]. by rewrite Ascii.eqb_refl.
  - intros [Hc Ha]%orb_false_iff.
    change (String c a +:+ String sep b) with (String c (a +:+ String sep b)).
    cbn [PyStr.split]. by rewrite Hc, (IH Ha).
Qed.

Lemma has_char_app (c : ascii) (a b : string) :
  has_char c (a +:+ b) = has_char c a || has_char c b.
Proof.
  induction a as [|x a IH]; [done|].
  change (String x a +:+ b) with (String x (a +:+ b)).
  cbn [has_char]. rewrite IH. apply orb_assoc.
Qed.

Lemma has_char_cons (c a : ascii) (s : string) :
  has_char c (String a s) = Ascii.eqb a c || has_char c s.
Proof. reflexivity. Qed.

Lemma not_digit_neq (c a : ascii) :
  is_digit c = false -> is_digit a = true -> Ascii.eqb a c = false.
Proof. intros Hc Ha. apply Ascii.eqb_neq. intros ->. congruence. Qed.

(** A decimal numeral is made of digits. *)
Lemma string_of_uint_digits (c : ascii) (d : Decimal.uint) :
  is_digit c = false -> has_char c (NilEmpty.string_of_uint d) = false.
Proof.
  intros Hc. induction d as [|d IH|d IH|d IH|d IH|d IH|d IH|d IH|d IH|d IH|d IH];
    cbn [NilEmpty.string_of_uint]; [done|..];
    rewrite has_char_cons, IH, orb_false_r;
    by apply (not_digit_neq c).
Qed.

Lemma str_of_nat_digits (c : ascii) (n : nat) :
  is_digit c = false -> has_char c (PyStr.str_of_nat n) = false.
Proof.
  intros Hc. unfold PyStr.str_of_nat, NilZero.string_of_uint.
  destruct (Nat.to_uint n) eqn:Hn;
    try (rewrite <- Hn; by apply string_of_uint_digits).
  rewrite has_char_cons. cbn [has_char]. rewrite orb_false_r.
  by apply (not_digit_neq c).
Qed.

Lemma str_of_nat_inj (n m : nat) :
  PyStr.str_of_nat n = PyStr.str_of_nat m -> n = m.
Proof.
  assert (Hnonnil : forall k, Nat.to_uint k <> Decimal.Nil).
  { intros k Hk. assert (k = 0%nat) as ->.
    { rewrite <- (DecimalNat.Unsigned.of_to k). by rewrite Hk. }
    discriminate Hk. }
  unfold PyStr.str_of_nat. intros Heq.
  apply DecimalNat.Unsigned.to_uint_inj.
  assert (Some (Nat.to_uint n) = Some (Nat.to_uint m)) as [= ->]; [|done].
  rewrite <- (NilZero.usu (Nat.to_uint n)) by apply Hnonnil.
  rewrite <- (NilZero.usu (Nat.to_uint m)) by apply Hnonnil.
  by rewrite Heq.
Qed.

(** ** Manifest names *)

Lemma plaw_json_name (congress : nat) :
  plaw_json congress = bulk_data_dir +:+ plaw_name congress.
Proof. reflexivity. Qed.

Lemma decode_congress_plaw_name (congress : nat) (w : world) :
  decode_congress (plaw_name congress) w = Ok (PyStr.str_of_nat congress) w.
Proof.
  assert (Hunderscore : forall s, has_char "_" (PyStr.str_of_nat congress +:+ s)
                                  = has_char "_" s).
  { intros s. rewrite has_char_app.
    by rewrite (str_of_nat_digits "_" congress eq_refl). }
  unfold decode_congress, plaw_name.
  change ("plaw_" +:+ PyStr.str_of_nat congress +:+ ".json")
    with ("plaw" +:+ String "_" (PyStr.str_of_nat congress +:+ ".json")).
  rewrite (split_at_first "_" "plaw") by reflexivity.
  rewrite (split_without "_" (PyStr.str_of_nat congress +:+ ".json"))
    by (by rewrite Hunderscore).
  cbn [lookup list_lookup].
  change (PyStr.str_of_nat congress +:+ ".json")
    with (PyStr.str_of_nat congress +:+ String "." "json").
  rewrite (split_at_first "." (PyStr.str_of_nat congress))
    by (by apply str_of_nat_digits).
  reflexivity.
Qed.

(** X1.  The manifest of a congress is filed under a name that the document
    stage decodes back to that congress: after [save_public_laws] the bulk
    directory lists the name, and [decode_congress] turns the name into the
    decimal numeral of the congress. *)
Theorem X1_saved_manifest_name_decodes (congress : nat) (r : response)
    (w : world) :
  exists w',
    save_public_laws congress r w = Ok tt w'
    /\ fs w' !! (bulk_data_dir +:+ plaw_name congress) = Some (body r)
    /\ (exists names, listdir bulk_data_dir w' = Ok names w'
                      /\ plaw_name congress ∈ names)
    /\ forall w'', decode_congress (plaw_name congress) w''
                   = Ok (PyStr.str_of_nat congress) w''.
Proof.
  eexists. split; [reflexivity|]. cbn [fs].
  rewrite plaw_json_name. split; [apply lookup_insert_eq|]. split.
  - eexists. split; [reflexivity|]. cbn [fs]. apply elem_of_listing.
    rewrite lookup_insert_eq. by eexists.
  - apply decode_congress_plaw_name.
Qed.

(** X2.  A file in the bulk directory whose name has no underscore stops
    the document stage: [process_bulk_plaw_file] raises [IndexError] before
    it logs, reads or fetches anything, and the loop over the directory
    ends there. *)
Theorem X2_name_without_underscore_raises
    (py_str : json -> string) (json_load : string -> option json)
    (server : list string -> string -> option response)
    (file : string) (w : world) :
  has_char "_" file = false ->
  process_bulk_plaw_file py_str json_load server file w = Raise IndexError w
  /\ forall before after w0,
       for_each (process_bulk_plaw_file py_str json_load server) before w0
         = Ok tt w ->
       for_each (process_bulk_plaw_file py_str json_load server)
         (before ++ file :: after) w0 = Raise IndexError w.
Proof.
  intros Hfile.
  assert (Hstep : process_bulk_plaw_file py_str json_load server file w
                  = Raise IndexError w).
  { unfold process_bulk_plaw_file, bind, decode_congress.
    by rewrite (split_without "_" file Hfile). }
  split; [exact Hstep|].
  intros before after w0 Hbefore.
  by apply (for_each_raise _ before after file w0 w).
Qed.

Lemma X2_witness :
  process_bulk_plaw_file Demo.py_str Demo.json_load Demo.server "README"
    Demo.fresh = Raise IndexError Demo.fresh
  /\ forall before after w0,
       for_each (process_bulk_plaw_file Demo.py_str Demo.json_load Demo.server)
         before w0 = Ok tt Demo.fresh ->
       for_each (process_bulk_plaw_file Demo.py_str Demo.json_load Demo.server)
         (before ++ "README" :: after) w0 = Raise IndexError Demo.fresh.
Proof.
  apply (X2_name_without_underscore_raises Demo.py_str Demo.json_load
           Demo.server "README" Demo.fresh).
  reflexivity.
Defined.

Lemma plaw_json_inj (n m : nat) : plaw_json n = plaw_json m -> n = m.
Proof.
  rewrite !plaw_json_name. intros Hname%(inj (String.append bulk_data_dir)).
  assert (Hdecode := decode_congress_plaw_name n Demo.fresh).
  rewrite Hname, decode_congress_plaw_name in Hdecode.
  injection Hdecode as Heq. symmetry. by apply str_of_nat_inj.
Qed.

Lemma bulk_data_endpoint_inj (n m : nat) :
  bulk_data_endpoint n = bulk_data_endpoint m -> n = m.
Proof.
  unfold bulk_data_endpoint.
  intros Hurl%(inj (String.append "https://www.govinfo.gov/bulkdata/json/PLAW/")).
  assert (Hsplit : forall k,
            PyStr.split "/" (PyStr.str_of_nat k +:+ "/public")
            = [PyStr.str_of_nat k; "public"]).
  { intros k. change (PyStr.str_of_nat k +:+ "/public")
      with (PyStr.str_of_nat k +:+ String "/" "public").
    by rewrite split_at_first by (by apply str_of_nat_digits). }
  assert (Heq := Hsplit n). rewrite Hurl, Hsplit in Heq.
  injection Heq as Heq. symmetry. by apply str_of_nat_inj.
Qed.

(** X3.  Different congresses never share a manifest file or a bulk
    endpoint: both the cache path and the URL determine the congress. *)
Theorem X3_one_manifest_per_congress (n m : nat) :
  n <> m ->
  plaw_json n <> plaw_json m
  /\ bulk_data_endpoint n <> bulk_data_endpoint m.
Proof.
  intros Hne. split; intros Heq; apply Hne.
  - by apply plaw_json_inj.
  - by apply bulk_data_endpoint_inj.
Qed.

Lemma X3_witness :
  plaw_json 113 <> plaw_json 114
  /\ bulk_data_endpoint 113 <> bulk_data_endpoint 114.
Proof. apply (X3_one_manifest_per_congress 113 114). lia. Defined.

(** ** Text paths of ordinary names *)

Lemma startswith_other_head (c : ascii) (s : string) :
  Ascii.eqb c "." = false -> PyStr.startswith (String c s) ".xml" = false.
Proof. intros Hc. cbn [PyStr.startswith]. by rewrite Ascii.eqb_sym, Hc. Qed.

Lemma replace_without_dot (s : string) :
  has_char "." s = false -> PyStr.replace ".xml" ".txt" s = s.
Proof.
  unfold PyStr.replace. induction s as [|c s IH]; [done|].
  rewrite has_char_cons. intros [Hc Hs]%orb_false_iff.
  cbn [PyStr.replace_from]. rewrite (startswith_other_head c s Hc).
  by rewrite (IH Hs).
Qed.

Lemma replace_extension (stem : string) :
  has_char "." stem = false ->
  PyStr.replace ".xml" ".txt" (stem +:+ ".xml") = stem +:+ ".txt".
Proof.
  unfold PyStr.replace. induction stem as [|c stem IH]; [done|].
  rewrite has_char_cons. intros [Hc Hs]%orb_false_iff.
  change (String c stem +:+ ".xml") with (String c (stem +:+ ".xml")).
  cbn [PyStr.replace_from]. rewrite (startswith_other_head c _ Hc).
  by rewrite (IH Hs).
Qed.

(** X4.  For a document whose name has no dot but the one of its .xml
    extension, the text file is the name with .txt for .xml, in the
    directory of the processed files; a name with no dot at all keeps its
    name. *)
Theorem X4_text_path_of_plain_names (name : string) :
  has_char "." name = false ->
  txt_path (name +:+ ".xml") = processed_dir +:+ name +:+ ".txt"
  /\ txt_path name = processed_dir +:+ name.
Proof.
  intros Hname. rewrite !txt_path_processed.
  by rewrite (replace_extension name Hname), (replace_without_dot name Hname).
Qed.

Lemma X4_witness :
  txt_path ("PLAW-115publ1" +:+ ".xml")
    = processed_dir +:+ "PLAW-115publ1" +:+ ".txt"
  /\ txt_path "PLAW-115publ1" = processed_dir +:+ "PLAW-115publ1".
Proof. apply (X4_text_path_of_plain_names "PLAW-115publ1"). reflexivity. Defined.

(** ** Entries that cannot be read *)

(** X5.  The order of the checks in [process_law_info].  An entry that is
    not a dictionary raises [TypeError], and a dictionary without a name
    raises [KeyError]; the link is looked at only when the document is not
    cached, so a cached entry is skipped whatever its link is, while an
    entry that is not cached raises [KeyError] when it has no link and
    [AttributeError] when its link is not a string.  No exception of these
    fetches, writes or logs anything. *)
Theorem X5_unreadable_entries
    (py_str : json -> string)
    (server : list string -> string -> option response) (w : world) :
  (forall law_info,
      (forall fields, law_info <> JObj fields) ->
      process_law_info py_str server law_info w = Raise TypeError w)
  /\ (forall fields,
        assoc "name" fields = None ->
        process_law_info py_str server (JObj fields) w
          = Raise (KeyError "name") w)
  /\ (forall fields name,
        assoc "name" fields = Some name ->
        is_Some (fs w !! cache_path py_str name) ->
        exists w', process_law_info py_str server (JObj fields) w = Ok tt w'
                   /\ same_state w' w)
  /\ (forall fields name,
        assoc "name" fields = Some name ->
        fs w !! cache_path py_str name = None ->
        assoc "link" fields = None ->
        process_law_info py_str server (JObj fields) w
          = Raise (KeyError "link") w)
  /\ (forall fields name link,
        assoc "name" fields = Some name ->
        fs w !! cache_path py_str name = None ->
        assoc "link" fields = Some link ->
        (forall url, link <> JStr url) ->
        process_law_info py_str server (JObj fields) w
          = Raise AttributeError w).
Proof.
  split; [|split; [|split; [|split]]].
  - intros law_info Hshape. destruct law_info; try reflexivity.
    by destruct (Hshape fields).
  - intros fields Hname.
    unfold process_law_info, bind, subscript. by rewrite Hname.
  - intros fields name Hname Hcached. eexists.
    split; [by apply law_info_cached | by split].
  - intros fields name Hname Hnone Hlink.
    unfold process_law_info, bind, subscript, path_exists, ret.
    rewrite Hname. fold (cache_path py_str name).
    rewrite bool_decide_eq_false_2 by (rewrite Hnone; by intros [? ?]).
    by rewrite Hlink.
  - intros fields name link Hname Hnone Hlink Hshape.
    unfold process_law_info, bind, subscript, path_exists, ret.
    rewrite Hname. fold (cache_path py_str name).
    rewrite bool_decide_eq_false_2 by (rewrite Hnone; by intros [? ?]).
    rewrite Hlink. destruct link; try reflexivity. by destruct (Hshape s).
Qed.

Lemma X5_witness :
  process_law_info Demo.py_str Demo.server (JStr "files") Demo.fresh
    = Raise TypeError Demo.fresh
  /\ process_law_info Demo.py_str Demo.server
       (JObj [("link", JStr Demo.law_url)]) Demo.fresh
     = Raise (KeyError "name") Demo.fresh
  /\ (exists w',
        process_law_info Demo.py_str Demo.server
          (JObj [("name", JStr Demo.law_file)]) Demo.fetched = Ok tt w'
        /\ same_state w' Demo.fetched)
  /\ process_law_info Demo.py_str Demo.server
       (JObj [("name", JStr Demo.law_file)]) Demo.fresh
     = Raise (KeyError "link") Demo.fresh
  /\ process_law_info Demo.py_str Demo.server
       (JObj [("name", JStr Demo.law_file); ("link", JNull)]) Demo.fresh
     = Raise AttributeError Demo.fresh.
Proof.
  destruct (X5_unreadable_entries Demo.py_str Demo.server Demo.fresh)
    as (Hshape & Hname & _ & Hlink & Hstring).
  destruct (X5_unreadable_entries Demo.py_str Demo.server Demo.fetched)
    as (_ & _ & Hcached & _ & _).
  split; [by apply Hshape|]. split; [by apply Hname|].
  split; [|split].
  - apply (Hcached _ (JStr Demo.law_file)); [reflexivity|].
    vm_compute. by eexists.
  - by apply (Hlink _ (JStr Demo.law_file)).
  - by apply (Hstring _ (JStr Demo.law_file) JNull).
Defined.

(** ** Transport failures *)

(** X6.  No stage catches a failure of the transport.  When the request
    itself fails, the manifest step and the document step raise the
    exception of the transport: the URL has been requested, no file is
    written, and the loop around the step ends there. *)
Theorem X6_transport_failure_propagates
    (py_str : json -> string)
    (server : list string -> string -> option response) (w : world) :
  (forall congress,
      fs w !! plaw_json congress = None ->
      server (calls w) (bulk_data_endpoint congress) = None ->
      exists w',
        get_bulk_public_law server congress w
          = Raise (TransportError (bulk_data_endpoint congress)) w'
        /\ fs w' = fs w
        /\ calls w' = calls w ++ [bulk_data_endpoint congress]
        /\ forall before after w0,
             for_each (get_bulk_public_law server) before w0 = Ok tt w ->
             for_each (get_bulk_public_law server)
               (before ++ congress :: after) w0
             = Raise (TransportError (bulk_data_endpoint congress)) w')
  /\ (forall fields name url,
        assoc "name" fields = Some name ->
        fs w !! cache_path py_str name = None ->
        assoc "link" fields = Some (JStr url) ->
        PyStr.endswith url ".xml" = true ->
        server (calls w) url = None ->
        exists w',
          process_law_info py_str server (JObj fields) w
            = Raise (TransportError url) w'
          /\ fs w' = fs w
          /\ calls w' = calls w ++ [url]
          /\ forall before after w0,
               for_each (process_law_info py_str server) before w0 = Ok tt w ->
               for_each (process_law_info py_str server)
                 (before ++ JObj fields :: after) w0
               = Raise (TransportError url) w').
Proof.
  split.
  - intros congress Hnone Hserver. eexists.
    assert (Hstep : get_bulk_public_law server congress w
                    = Raise (TransportError (bulk_data_endpoint congress))
                        (World (fs w) (calls w ++ [bulk_data_endpoint congress])
                           (log w ++ [(INFO, "Starting congress "
                                             +:+ PyStr.str_of_nat congress)]))).
    { unfold get_bulk_public_law, bind, check_if_raw_data_exists, path_exists.
      rewrite bool_decide_eq_false_2 by (rewrite Hnone; by intros [? ?]).
      unfold logger, call_api. cbn [fs calls log]. by rewrite Hserver. }
    split; [exact Hstep|]. split; [reflexivity|]. split; [reflexivity|].
    intros before after w0 Hbefore.
    by apply (for_each_raise _ before after congress w0 w).
  - intros fields name url Hname Hnone Hlink Hext Hserver. eexists.
    assert (Hstep : process_law_info py_str server (JObj fields) w
                    = Raise (TransportError url)
                        (World (fs w) (calls w ++ [url])
                           (log w ++ [(INFO, "Downloading "
                                             +:+ format_value py_str name
                                             +:+ " from " +:+ url)]))).
    { unfold process_law_info, bind, subscript, path_exists, ret.
      rewrite Hname. fold (cache_path py_str name).
      rewrite bool_decide_eq_false_2 by (rewrite Hnone; by intros [? ?]).
      rewrite Hlink, Hext. cbn [negb]. unfold logger, call_api.
      cbn [fs calls log]. by rewrite Hserver. }
    split; [exact Hstep|]. split; [reflexivity|]. split; [reflexivity|].
    intros before after w0 Hbefore.
    by apply (for_each_raise _ before after (JObj fields) w0 w).
Qed.

Lemma X6_witness :
  (exists w',
     get_bulk_public_law Demo.offline 113 Demo.fresh
       = Raise (TransportError (bulk_data_endpoint 113)) w'
     /\ fs w' = fs Demo.fresh
     /\ calls w' = calls Demo.fresh ++ [bulk_data_endpoint 113])
  /\ (exists w',
        process_law_info Demo.py_str Demo.offline Demo.law_entry Demo.fresh
          = Raise (TransportError Demo.law_url) w'
        /\ fs w' = fs Demo.fresh
        /\ calls w' = calls Demo.fresh ++ [Demo.law_url]).
Proof.
  destruct (X6_transport_failure_propagates Demo.py_str Demo.offline Demo.fresh)
    as [Hmanifest Hdocument].
  split.
  - destruct (Hmanifest 113%nat) as (w' & Hraise & Hfs & Hcalls & _);
      [reflexivity | reflexivity |].
    by exists w'.
  - destruct (Hdocument
                [("name", JStr Demo.law_file); ("link", JStr Demo.law_url)]
                (JStr Demo.law_file) Demo.law_url)
      as (w' & Hraise & Hfs & Hcalls & _);
      [reflexivity | reflexivity | reflexivity | reflexivity | reflexivity |].
    by exists w'.
Defined.

(** ** The document stage as a whole *)

Lemma get_individual_laws_loop (py_str : json -> string)
    (json_load : string -> option json)
    (server : list string -> string -> option response) (w : world) :
  get_individual_laws py_str json_load server w
  = for_each (process_bulk_plaw_file py_str json_load server)
      (map fst (map_to_list (entries bulk_data_dir (fs w)))) w.
Proof. reflexivity. Qed.

(** X7.  Whatever the manifests hold, whatever the server answers and
    however the stage ends, [get_individual_laws] removes no file and
    changes no file: every file from before is still there with its
    contents.  When the document cache holds plain files only afterwards,
    so that no entry name has led out of it, a path that holds a file only
    afterwards is that of a plain file in the directory of the individual
    documents. *)
Theorem X7_document_stage_only_adds
    (py_str : json -> string) (json_load : string -> option json)
    (server : list string -> string -> option response) (w : world) :
  (forall path data,
      fs w !! path = Some data ->
      fs (final (get_individual_laws py_str json_load server w)) !! path
      = Some data)
  /\ (flat individual_law_data_dir
        (fs (final (get_individual_laws py_str json_load server w))) ->
      forall path,
        fs w !! path = None ->
        is_Some (fs (final (get_individual_laws py_str json_load server w))
                   !! path) ->
        exists name,
          path = individual_law_data_dir +:+ name
          /\ plain_name name = true).
Proof.
  rewrite get_individual_laws_loop.
  assert (Hgrows := manifests_grow py_str json_load server
                      (map fst (map_to_list (entries bulk_data_dir (fs w)))) w).
  split.
  - intros path data Hdata.
    destruct (Hgrows path) as [-> | [Hnone _]]; [done | congruence].
  - intros Hflat path Hnone [data Hdata].
    destruct (Hgrows path) as [Hsame | [_ [name ->]]]; [congruence|].
    exists name. split; [done|]. apply Hflat. by eexists.
Qed.

(** X8.  When [get_individual_laws] completes, nothing is left to fetch:
    every entry of the list under "files" of every manifest that was in
    the bulk directory is a dictionary with a name, and its document is
    in the cache unless its link does not end in ".xml". *)
Theorem X8_document_stage_completes
    (py_str : json -> string) (json_load : string -> option json)
    (server : list string -> string -> option response) (w w' : world)
    (file data : string) (fields : list (string * json))
    (law_infos : list json) (law_info : json) :
  get_individual_laws py_str json_load server w = Ok tt w' ->
  fs w !! (bulk_data_dir +:+ file) = Some data ->
  json_load data = Some (JObj fields) ->
  assoc "files" fields = Some (JArr law_infos) ->
  law_info ∈ law_infos ->
  exists entry name,
    law_info = JObj entry
    /\ assoc "name" entry = Some name
    /\ (is_Some (fs w' !! (individual_law_data_dir +:+ format_value py_str name))
        \/ exists url, assoc "link" entry = Some (JStr url)
                       /\ PyStr.endswith url ".xml" = false).
Proof.
  intros Hok Hdata Hload Hfiles Hin. rewrite get_individual_laws_loop in Hok.
  assert (Hgrows := manifests_grow py_str json_load server
                      (map fst (map_to_list (entries bulk_data_dir (fs w)))) w).
  rewrite Hok in Hgrows. cbn [final] in Hgrows.
  apply manifests_settle in Hok. rewrite Forall_forall in Hok.
  destruct (Hok file)
    as (congress & data' & bulk_data & law_files & infos
        & _ & Hdata' & Hload' & Hsub & Hiter & Hsettled).
  { apply elem_of_listing. by eexists. }
  destruct (Hgrows (bulk_data_dir +:+ file)) as [Hsame | [Hnone _]];
    [|congruence].
  rewrite Hsame, Hdata in Hdata'. injection Hdata' as <-.
  rewrite Hload in Hload'. injection Hload' as <-.
  specialize (Hsub w). cbn in Hsub. rewrite Hfiles in Hsub.
  injection Hsub as <-.
  specialize (Hiter w). cbn in Hiter. injection Hiter as <-.
  rewrite Forall_forall in Hsettled.
  exact (Hsettled law_info Hin).
Qed.

Lemma X8_witness :
  exists entry name,
    Demo.law_entry = JObj entry
    /\ assoc "name" entry = Some name
    /\ (is_Some
          (fs (final (get_individual_laws Demo.py_str Demo.json_load
                        Demo.server Demo.listed_twice))
             !! (individual_law_data_dir
                 +:+ format_value Demo.py_str name))
        \/ exists url, assoc "link" entry = Some (JStr url)
                       /\ PyStr.endswith url ".xml" = false).
Proof.
  apply (X8_document_stage_completes Demo.py_str Demo.json_load Demo.server
           Demo.listed_twice _ "plaw_115.json" Demo.manifest_115
           [("files", JArr [Demo.law_entry; Demo.report_entry])]
           [Demo.law_entry; Demo.report_entry] Demo.law_entry).
  - vm_compute; reflexivity.
  - vm_compute; reflexivity.
  - vm_compute; reflexivity.
  - reflexivity.
  - apply list_elem_of_here.
Defined.

(** ** The extraction stage as a whole *)

Section ExtractionLoop.
Variable upper : string -> string.
Variable isspace : ascii -> bool.
Variable xml_parse : string -> parsed.

(** An exception of the parser that is not a [ParseError] leaves
    [process_individual_law_file] as it is, with no file touched. *)
Lemma process_uncaught (file data : string) (e : exn) (w : world) :
  fs w !! (individual_law_data_dir +:+ file) = Some data ->
  xml_parse data = Uncaught e ->
  process_individual_law_file upper isspace xml_parse file w = Raise e w.
Proof.
  intros Hdata Hparse.
  unfold process_individual_law_file, bind, read_file.
  by rewrite Hdata, Hparse.
Qed.

(** The loop of the stage over names that are all cached and all
    different.  Either it completes, and each path is left as it was, or
    held a malformed document and is removed, or is the text path of a
    document that parses and holds its text; or it ends at a document on
    which the parser raises something else than a [ParseError], and that
    document is still in the cache. *)
Lemma extraction_loop (names : list string) : forall w : world,
  NoDup names ->
  (forall name, name ∈ names ->
     is_Some (fs w !! (individual_law_data_dir +:+ name))) ->
  (exists w',
     for_each (process_individual_law_file upper isspace xml_parse) names w
     = Ok tt w'
     /\ extracted upper isspace xml_parse (fun name => name ∈ names) w w')
  \/ (exists e w' name data,
        for_each (process_individual_law_file upper isspace xml_parse) names w
        = Raise e w'
        /\ name ∈ names
        /\ fs w !! (individual_law_data_dir +:+ name) = Some data
        /\ fs w' !! (individual_law_data_dir +:+ name) = Some data
        /\ xml_parse data = Uncaught e).
Proof.
  unfold extracted.
  induction names as [|n rest IH]; intros w Hnodup Hcached.
  { left. exists w. split; [reflexivity|]. split; [reflexivity|].
    split; [by left|].
    split; [|split]; intros name data x Hin; by apply elem_of_nil in Hin. }
  apply NoDup_cons in Hnodup as [Hnotin Hnodup].
  destruct (Hcached n) as [data Hdata]; [apply list_elem_of_here|].
  destruct (xml_parse data) as [message|root|e] eqn:Hparse.
  - (* the document is malformed: it is removed *)
    assert (Hstep := process_malformed upper isspace xml_parse
                       n data message w Hdata Hparse).
    match type of Hstep with _ = Ok tt ?x => remember x as w1 eqn:Ew1 end.
    assert (Hfs1 : fs w1 = delete (individual_law_data_dir +:+ n) (fs w))
      by (by subst w1).
    assert (Hcalls1 : calls w1 = calls w) by (by subst w1).
    assert (Hrest : forall name, name ∈ rest ->
              fs w1 !! (individual_law_data_dir +:+ name)
              = fs w !! (individual_law_data_dir +:+ name)).
    { intros name Hin. rewrite Hfs1. apply lookup_delete_ne.
      intros Heq. apply individual_name_inj in Heq. by subst. }
    clear Ew1.
    destruct (IH w1 Hnodup)
      as [(w' & Hloop & Hcalls & Htri & Hbad & Hgood & Hcaught)
         | (e & w' & name & d & Hloop & Hin & Hd & Hd' & Hp)].
    { intros name Hin. rewrite (Hrest name Hin). apply Hcached.
      by apply list_elem_of_further. }
    2:{ right. exists e, w', name, d. split.
        { cbn [for_each]. unfold bind. by rewrite Hstep. }
        split; [by apply list_elem_of_further|].
        split; [by rewrite <- (Hrest name Hin)|]. by split. }
    left. exists w'. split.
    { cbn [for_each]. unfold bind. by rewrite Hstep. }
    split; [congruence|]. split; [|split; [|split]].
    + intros path.
      destruct (Htri path)
        as [Hsame | [(name & d & m & Hin & -> & Hd & Hp & Hnone)
                    | (name & d & r & Hin & -> & Hd & Hp & Hsome)]].
      * destruct (decide (path = individual_law_data_dir +:+ n)) as [-> | Hne].
        -- right; left. exists n, data, message.
           split; [apply list_elem_of_here|]. split; [done|].
           split; [done|]. split; [done|].
           by rewrite Hsame, Hfs1, lookup_delete_eq.
        -- left. rewrite Hsame, Hfs1. by apply lookup_delete_ne.
      * right; left. exists name, d, m.
        split; [by apply list_elem_of_further|]. split; [done|].
        split; [by rewrite <- (Hrest name Hin)|]. by split.
      * right; right. exists name, d, r.
        split; [by apply list_elem_of_further|]. split; [done|].
        split; [by rewrite <- (Hrest name Hin)|]. by split.
    + intros name d m Hin Hd Hp.
      apply elem_of_cons in Hin as [-> | Hin].
      * destruct (Htri (individual_law_data_dir +:+ n))
          as [Hsame | [(name & d' & m' & _ & _ & _ & _ & Hnone)
                      | (name & d' & r & _ & Heq & _)]].
        -- by rewrite Hsame, Hfs1, lookup_delete_eq.
        -- done.
        -- by apply txt_path_not_cached' in Heq.
      * apply (Hbad name d m Hin); [|done]. by rewrite (Hrest name Hin).
    + intros name d r Hin Hd Hp.
      apply elem_of_cons in Hin as [-> | Hin]; [congruence|].
      destruct (Hgood name d r Hin) as (name' & d' & r' & Hin' & Htxt & Hd' & Hp' & Hsome);
        [by rewrite (Hrest name Hin) | done |].
      exists name', d', r'.
      split; [by apply list_elem_of_further|]. split; [done|].
      split; [by rewrite <- (Hrest name' Hin')|]. by split.
    + intros name d e Hin Hd Hp.
      apply elem_of_cons in Hin as [-> | Hin]; [congruence|].
      apply (Hcaught name d e Hin); [|done]. by rewrite (Hrest name Hin).
  - (* the document parses: its text is written *)
    assert (Hstep := process_parsed upper isspace xml_parse
                       n data root w Hdata Hparse).
    match type of Hstep with _ = Ok tt ?x => remember x as w1 eqn:Ew1 end.
    assert (Hfs1 : fs w1 = <[txt_path n := extract upper isspace root]> (fs w))
      by (by subst w1).
    assert (Hcalls1 : calls w1 = calls w) by (by subst w1).
    assert (Hrest : forall name,
              fs w1 !! (individual_law_data_dir +:+ name)
              = fs w !! (individual_law_data_dir +:+ name)).
    { intros name. rewrite Hfs1. apply lookup_insert_ne.
      apply not_eq_sym, txt_path_not_cached'. }
    clear Ew1.
    destruct (IH w1 Hnodup)
      as [(w' & Hloop & Hcalls & Htri & Hbad & Hgood & Hcaught)
         | (e & w' & name & d & Hloop & Hin & Hd & Hd' & Hp)].
    { intros name Hin. rewrite (Hrest name). apply Hcached.
      by apply list_elem_of_further. }
    2:{ right. exists e, w', name, d. split.
        { cbn [for_each]. unfold bind. by rewrite Hstep. }
        split; [by apply list_elem_of_further|].
        split; [by rewrite <- (Hrest name)|]. by split. }
    left. exists w'. split.
    { cbn [for_each]. unfold bind. by rewrite Hstep. }
    split; [congruence|]. split; [|split; [|split]].
    + intros path.
      destruct (Htri path)
        as [Hsame | [(name & d & m & Hin & -> & Hd & Hp & Hnone)
                    | (name & d & r & Hin & -> & Hd & Hp & Hsome)]].
      * destruct (decide (path = txt_path n)) as [-> | Hne].
        -- right; right. exists n, data, root.
           split; [apply list_elem_of_here|]. split; [done|].
           split; [done|]. split; [done|].
           by rewrite Hsame, Hfs1, lookup_insert_eq.
        -- left. rewrite Hsame, Hfs1. by apply lookup_insert_ne.
      * right; left. exists name, d, m.
        split; [by apply list_elem_of_further|]. split; [done|].
        split; [by rewrite <- (Hrest name)|]. by split.
      * right; right. exists name, d, r.
        split; [by apply list_elem_of_further|]. split; [done|].
        split; [by rewrite <- (Hrest name)|]. by split.
    + intros name d m Hin Hd Hp.
      apply elem_of_cons in Hin as [-> | Hin]; [congruence|].
      apply (Hbad name d m Hin); [|done]. by rewrite (Hrest name).
    + intros name d r Hin Hd Hp.
      apply elem_of_cons in Hin as [-> | Hin].
      * destruct (Htri (txt_path n))
          as [Hsame | [(name & d' & m' & _ & Heq & _)
                      | (name & d' & r' & Hin & Heq & Hd' & Hp' & Hsome)]].
        -- exists n, data, root. split; [apply list_elem_of_here|].
           split; [done|]. split; [done|]. split; [done|].
           by rewrite Hsame, Hfs1, lookup_insert_eq.
        -- symmetry in Heq. by apply txt_path_not_cached' in Heq.
        -- exists name, d', r'. split; [by apply list_elem_of_further|].
           split; [done|]. split; [by rewrite <- (Hrest name)|]. by split.
      * destruct (Hgood name d r Hin)
          as (name' & d' & r' & Hin' & Htxt & Hd' & Hp' & Hsome);
          [by rewrite (Hrest name) | done |].
        exists name', d', r'.
        split; [by apply list_elem_of_further|]. split; [done|].
        split; [by rewrite <- (Hrest name')|]. by split.
    + intros name d e Hin Hd Hp.
      apply elem_of_cons in Hin as [-> | Hin]; [congruence|].
      apply (Hcaught name d e Hin); [|done]. by rewrite (Hrest name).
  - (* the parser raises something else: the loop ends here *)
    right. exists e, w, n, data. split.
    { cbn [for_each]. unfold bind.
      by rewrite (process_uncaught n data e w Hdata Hparse). }
    split; [apply list_elem_of_here|]. by split.
Qed.

(** The stage is the loop over the listing of the document cache, whose
    names are all cached and all different. *)
Lemma extraction_stage (w : world) :
  (exists w',
     process_individual_laws upper isspace xml_parse w = Ok tt w'
     /\ extracted upper isspace xml_parse
          (fun name => is_Some (fs w !! (individual_law_data_dir +:+ name)))
          w w')
  \/ (exists e w' name data,
        process_individual_laws upper isspace xml_parse w = Raise e w'
        /\ fs w !! (individual_law_data_dir +:+ name) = Some data
        /\ fs w' !! (individual_law_data_dir +:+ name) = Some data
        /\ xml_parse data = Uncaught e).
Proof.
  destruct (extraction_loop
              (map fst (map_to_list (entries individual_law_data_dir (fs w)))) w)
    as [(w' & Hloop & Hcalls & Htri & Hbad & Hgood & Hcaught)
       | (e & w' & name & d & Hloop & _ & H)].
  { apply NoDup_fst_map_to_list. }
  { intros name Hin. by apply elem_of_listing. }
  2:{ right. by exists e, w', name, d. }
  left. exists w'. split; [exact Hloop|]. split; [exact Hcalls|].
  split; [|split; [|split]].
  - intros path.
    destruct (Htri path)
      as [Hsame | [(name & d & m & Hin & H) | (name & d & r & Hin & H)]].
    + by left.
    + right; left. exists name, d, m. split; [|done].
      by apply elem_of_listing in Hin.
    + right; right. exists name, d, r. split; [|done].
      by apply elem_of_listing in Hin.
  - intros name d m Hin Hd Hp. apply (Hbad name d m); [|done..].
    by apply elem_of_listing.
  - intros name d r Hin Hd Hp.
    destruct (Hgood name d r) as (name' & d' & r' & Hin' & H); [|done..|].
    + by apply elem_of_listing.
    + exists name', d', r'. split; [|done]. by apply elem_of_listing in Hin'.
  - intros name d e Hin Hd Hp. apply (Hcaught name d e); [|done..].
    by apply elem_of_listing.
Qed.
End ExtractionLoop.

(** X9.  Let the cache hold a document, so that its directory is there
    to be listed; let it hold plain files only; and let the parser raise
    nothing but a [ParseError] on the documents in it.  Then
    [process_individual_laws] runs to its end, whatever else the documents
    hold, and sends no request.  Afterwards every document left in the
    cache was there before and parses; every cached document that did not
    parse is gone; and the manifests in the bulk directory are as they
    were. *)
Theorem X9_extraction_stage_completes
    (upper : string -> string) (isspace : ascii -> bool)
    (xml_parse : string -> parsed) (w : world) (cached : string) :
  is_Some (fs w !! (individual_law_data_dir +:+ cached)) ->
  flat individual_law_data_dir (fs w) ->
  (forall name data e,
      fs w !! (individual_law_data_dir +:+ name) = Some data ->
      xml_parse data <> Uncaught e) ->
  exists w',
    process_individual_laws upper isspace xml_parse w = Ok tt w'
    /\ calls w' = calls w
    /\ (forall name data,
          fs w' !! (individual_law_data_dir +:+ name) = Some data ->
          fs w !! (individual_law_data_dir +:+ name) = Some data
          /\ exists root, xml_parse data = Tree root)
    /\ (forall name data message,
          fs w !! (individual_law_data_dir +:+ name) = Some data ->
          xml_parse data = ParseError message ->
          fs w' !! (individual_law_data_dir +:+ name) = None)
    /\ (forall name,
          fs w' !! (bulk_data_dir +:+ name) = fs w !! (bulk_data_dir +:+ name)).
Proof.
  intros _ _ Hcaught.
  destruct (extraction_stage upper isspace xml_parse w)
    as [(w' & Hrun & Hcalls & Htri & Hbad & _)
       | (e & w' & name & d & _ & Hd & _ & Hp)];
    [|by destruct (Hcaught name d e Hd)].
  exists w'. split; [exact Hrun|]. split; [exact Hcalls|].
  split; [|split].
  - intros name data Hleft.
    destruct (Htri (individual_law_data_dir +:+ name))
      as [Hsame | [(name' & d & m & _ & _ & _ & _ & Hnone)
                  | (name' & d & r & _ & Heq & _)]].
    + rewrite Hsame in Hleft. split; [exact Hleft|].
      destruct (xml_parse data) as [message|root|e] eqn:Hparse.
      * rewrite (Hbad name data message) in Hsame;
          [congruence | by eexists | done | done].
      * by eexists.
      * by destruct (Hcaught name data e Hleft).
    + congruence.
    + by apply txt_path_not_cached' in Heq.
  - intros name data message Hdata Hparse.
    apply (Hbad name data message); [by eexists | done | done].
  - intros name.
    destruct (Htri (bulk_data_dir +:+ name))
      as [Hsame | [(name' & d & m & _ & Heq & _) | (name' & d & r & _ & Heq & _)]].
    + exact Hsame.
    + by apply bulk_not_individual in Heq.
    + rewrite txt_path_processed in Heq. by apply bulk_not_processed in Heq.
Qed.

Lemma X9_witness :
  exists w',
    process_individual_laws Demo.upper Demo.isspace Demo.xml_parse
      Demo.cached_broken = Ok tt w'
    /\ calls w' = calls Demo.cached_broken
    /\ (forall name data,
          fs w' !! (individual_law_data_dir +:+ name) = Some data ->
          fs Demo.cached_broken !! (individual_law_data_dir +:+ name)
          = Some data
          /\ exists root, Demo.xml_parse data = Tree root)
    /\ (forall name data message,
          fs Demo.cached_broken !! (individual_law_data_dir +:+ name)
          = Some data ->
          Demo.xml_parse data = ParseError message ->
          fs w' !! (individual_law_data_dir +:+ name) = None)
    /\ (forall name,
          fs w' !! (bulk_data_dir +:+ name)
          = fs Demo.cached_broken !! (bulk_data_dir +:+ name)).
Proof.
  apply (X9_extraction_stage_completes Demo.upper Demo.isspace Demo.xml_parse
           Demo.cached_broken Demo.law_file).
  - exists Demo.broken_xml. apply lookup_singleton_eq.
  - intros name [data Hdata].
    change (fs Demo.cached_broken)
      with ({[ individual_law_data_dir +:+ Demo.law_file := Demo.broken_xml ]}
            : gmap string string) in Hdata.
    apply lookup_singleton_Some in Hdata as [Heq _].
    apply individual_name_inj in Heq as <-. reflexivity.
  - intros name data e Hdata.
    change (fs Demo.cached_broken)
      with ({[ individual_law_data_dir +:+ Demo.law_file := Demo.broken_xml ]}
            : gmap string string) in Hdata.
    apply lookup_singleton_Some in Hdata as [_ <-].
    vm_compute. discriminate.
Defined.

(** X10.  When [process_individual_laws] completes, a cached document
    that parses is still in the cache, and its text path holds its text,
    as long as no other cached name has the same text path.  Documents
    that do not parse, elsewhere in the cache, do not stand in the way. *)
Theorem X10_parsed_documents_get_their_text
    (upper : string -> string) (isspace : ascii -> bool)
    (xml_parse : string -> parsed) (w w' : world)
    (name data : string) (root : Element) :
  process_individual_laws upper isspace xml_parse w = Ok tt w' ->
  fs w !! (individual_law_data_dir +:+ name) = Some data ->
  xml_parse data = Tree root ->
  (forall name',
      is_Some (fs w !! (individual_law_data_dir +:+ name')) ->
      txt_path name' = txt_path name -> name' = name) ->
  fs w' !! (individual_law_data_dir +:+ name) = Some data
  /\ fs w' !! txt_path name = Some (extract upper isspace root).
Proof.
  intros Hok Hdata Hparse Halone.
  destruct (extraction_stage upper isspace xml_parse w)
    as [(w1 & Hrun & _ & Htri & _ & Hgood & _)
       | (e & w1 & _ & _ & Hrun & _)];
    rewrite Hrun in Hok; [|done].
  injection Hok as ->. split.
  - destruct (Htri (individual_law_data_dir +:+ name))
      as [Hsame | [(name' & d & m & _ & Heq & Hd & Hp & _)
                  | (name' & d & r & _ & Heq & _)]].
    + by rewrite Hsame.
    + congruence.
    + by apply txt_path_not_cached' in Heq.
  - destruct (Hgood name data root) as (name' & d & r & Hin & Htxt & Hd & Hp & Hsome);
      [by eexists | done | done |].
    assert (name' = name) as -> by (by apply Halone).
    congruence.
Qed.

Lemma X10_witness :
  fs (final (process_individual_laws Demo.upper Demo.isspace Demo.xml_parse
               Demo.cached))
    !! (individual_law_data_dir +:+ Demo.law_file) = Some Demo.law_xml
  /\ fs (final (process_individual_laws Demo.upper Demo.isspace Demo.xml_parse
                  Demo.cached))
       !! txt_path Demo.law_file
     = Some (extract Demo.upper Demo.isspace Demo.law_tree).
Proof.
  apply (X10_parsed_documents_get_their_text Demo.upper Demo.isspace
           Demo.xml_parse Demo.cached _ Demo.law_file Demo.law_xml
           Demo.law_tree).
  - vm_compute; reflexivity.
  - apply lookup_singleton_eq.
  - vm_compute; reflexivity.
  - intros name' [data Hdata] _.
    change (fs Demo.cached)
      with ({[ individual_law_data_dir +:+ Demo.law_file := Demo.law_xml ]}
            : gmap string string) in Hdata.
    apply lookup_singleton_Some in Hdata as [Heq _].
    symmetry. exact (individual_name_inj _ _ Heq).
Defined.

(** ** The manifest stage as a whole *)

Section ManifestLoop.
Variable server : list string -> string -> option response.

Lemma bulk_grows_refl files : bulk_grows files files.
Proof. intros path. by left. Qed.

Lemma bulk_grows_trans f1 f2 f3 :
  bulk_grows f1 f2 -> bulk_grows f2 f3 -> bulk_grows f1 f3.
Proof.
  intros H12 H23 path.
  destruct (H23 path) as [-> | [Hnone Hname]]; [apply H12|].
  destruct (H12 path) as [Hsame | [Hnone' _]].
  - right. split; [congruence | done].
  - right. by split.
Qed.

Lemma get_bulk_public_law_grows (congress : nat) (w : world) :
  bulk_grows (fs w) (fs (final (get_bulk_public_law server congress w))).
Proof.
  destruct (fs w !! plaw_json congress) as [data|] eqn:Hcached.
  { rewrite congress_cached by (by rewrite Hcached). apply bulk_grows_refl. }
  destruct (server (calls w) (bulk_data_endpoint congress)) as [r|] eqn:Hserver.
  - assert (Hstep := congress_fetched server congress r w Hcached Hserver).
    cbn zeta in Hstep. rewrite Hstep.
    destruct (status_code r =? 200)%Z; cbn [final fs];
      [|apply bulk_grows_refl].
    intros path. destruct (decide (plaw_json congress = path)) as [<- | Hne].
    + right. split; [done | by eexists].
    + left. by apply lookup_insert_ne.
  - unfold get_bulk_public_law, bind, check_if_raw_data_exists, path_exists.
    rewrite bool_decide_eq_false_2 by (rewrite Hcached; by intros [? ?]).
    unfold logger, call_api. cbn [fs calls log]. rewrite Hserver.
    apply bulk_grows_refl.
Qed.

Lemma get_bulk_public_laws_grow (w : world) :
  bulk_grows (fs w) (fs (final (get_bulk_public_laws server w))).
Proof.
  apply (for_each_related _ bulk_grows bulk_grows_refl bulk_grows_trans
           get_bulk_public_law_grows).
Qed.
End ManifestLoop.

(** X11.  However [get_bulk_public_laws] ends, it removes no file and
    changes no file, and a path that holds a file only afterwards is the
    manifest path of a congress.  When the stage completes, the manifest
    of each congress from 113 to 118 is in the bulk directory. *)
Theorem X11_manifest_stage_only_adds
    (server : list string -> string -> option response) (w : world) :
  (forall path data,
      fs w !! path = Some data ->
      fs (final (get_bulk_public_laws server w)) !! path = Some data)
  /\ (forall path,
        fs w !! path = None ->
        is_Some (fs (final (get_bulk_public_laws server w)) !! path) ->
        exists congress, path = plaw_json congress)
  /\ (forall w' congress,
        get_bulk_public_laws server w = Ok tt w' ->
        (113 <= congress <= 118)%nat ->
        is_Some (fs w' !! (bulk_data_dir +:+ plaw_name congress))).
Proof.
  assert (Hgrows := get_bulk_public_laws_grow server w).
  split; [|split].
  - intros path data Hdata.
    destruct (Hgrows path) as [-> | [Hnone _]]; [done | congruence].
  - intros path Hnone [data Hdata].
    destruct (Hgrows path) as [Hsame | [_ Hname]]; [congruence | done].
  - intros w' congress Hok Hrange.
    apply get_bulk_public_laws_settle in Hok. rewrite Forall_forall in Hok.
    apply (Hok congress). unfold congresses. apply list_elem_of_In, in_seq. lia.
Qed.

Lemma X11_witness :
  is_Some (fs Demo.stage_1 !! (bulk_data_dir +:+ plaw_name 118)).
Proof.
  destruct (X11_manifest_stage_only_adds Demo.server (greeted Demo.fresh))
    as (_ & _ & Hall).
  apply (Hall Demo.stage_1 118%nat); [vm_compute; reflexivity | lia].
Defined.

(** ** The whole script *)

Section WholeRun.
Variable upper : string -> string.
Variable isspace : ascii -> bool.
Variable py_str : json -> string.
Variable json_load : string -> option json.
Variable xml_parse : string -> parsed.
Variable server : list string -> string -> option response.

(** The two download stages do not touch the processed texts, and remove
    or change no file. *)
Lemma bulk_grows_keeps_all files files' path data :
  bulk_grows files files' -> files !! path = Some data ->
  files' !! path = Some data.
Proof.
  intros Hgrows Hdata.
  destruct (Hgrows path) as [-> | [Hnone _]]; [done | congruence].
Qed.

Lemma cache_grows_keeps_all files files' path data :
  cache_grows files files' -> files !! path = Some data ->
  files' !! path = Some data.
Proof.
  intros Hgrows Hdata.
  destruct (Hgrows path) as [-> | [Hnone _]]; [done | congruence].
Qed.

Lemma bulk_grows_processed files files' name :
  bulk_grows files files' ->
  files' !! (processed_dir +:+ name) = files !! (processed_dir +:+ name).
Proof.
  intros Hgrows.
  destruct (Hgrows (processed_dir +:+ name)) as [-> | [_ [congress Heq]]];
    [done|].
  symmetry in Heq. by apply bulk_not_processed in Heq.
Qed.

Lemma cache_grows_processed files files' name :
  cache_grows files files' ->
  files' !! (processed_dir +:+ name) = files !! (processed_dir +:+ name).
Proof.
  intros Hgrows.
  destruct (Hgrows (processed_dir +:+ name)) as [-> | [_ [name' Heq]]];
    [done|].
  symmetry in Heq. by apply individual_not_processed in Heq.
Qed.

(** How a run ends: in the manifest stage, in the document stage, or as
    the extraction stage ends. *)
Lemma main_cases (w : world) :
  (exists e w1,
      main upper isspace py_str json_load xml_parse server w = Raise e w1
      /\ bulk_grows (fs w) (fs w1))
  \/ (exists e w1 w2,
        main upper isspace py_str json_load xml_parse server w = Raise e w2
        /\ bulk_grows (fs w) (fs w1) /\ cache_grows (fs w1) (fs w2))
  \/ (exists w1 w2,
        main upper isspace py_str json_load xml_parse server w
        = process_individual_laws upper isspace xml_parse w2
        /\ get_bulk_public_laws server (greeted w) = Ok tt w1
        /\ get_individual_laws py_str json_load server w1 = Ok tt w2
        /\ bulk_grows (fs w) (fs w1) /\ cache_grows (fs w1) (fs w2)).
Proof.
  rewrite main_stages.
  assert (H1 := get_bulk_public_laws_grow server (greeted w)).
  destruct (get_bulk_public_laws server (greeted w)) as [[] w1|e w1];
    cbn [final] in H1; [|left; by exists e, w1].
  right.
  assert (H2 := manifests_grow py_str json_load server
                  (map fst (map_to_list (entries bulk_data_dir (fs w1)))) w1).
  rewrite <- get_individual_laws_loop in H2.
  destruct (get_individual_laws py_str json_load server w1) as [[] w2|e w2]
    eqn:Hstage2; cbn [final] in H2; [|left; by exists e, w1, w2].
  right. exists w1, w2. repeat (split; [done|]). done.
Qed.
End WholeRun.

(** X12.  A run that ends in an exception ended in one of two ways.
    Either a download stage raised: then nothing was extracted, the
    directory of the processed texts is as it was, and no file was removed
    or changed, so what was fetched before the exception is kept for the
    next run.  Or the extraction stage raised: then the exception is one
    that the parser raised on a document of the cache, other than a
    [ParseError], and that document is still in the cache.  The bulk
    directory and the document cache are taken to hold plain files
    only. *)
Theorem X12_how_a_run_fails
    (upper : string -> string) (isspace : ascii -> bool)
    (py_str : json -> string) (json_load : string -> option json)
    (xml_parse : string -> parsed)
    (server : list string -> string -> option response)
    (w w' : world) (e : exn) :
  main upper isspace py_str json_load xml_parse server w = Raise e w' ->
  flat bulk_data_dir (fs w') ->
  flat individual_law_data_dir (fs w') ->
  ((forall name,
       fs w' !! (processed_dir +:+ name) = fs w !! (processed_dir +:+ name))
   /\ (forall path data, fs w !! path = Some data -> fs w' !! path = Some data))
  \/ (exists name data,
        fs w' !! (individual_law_data_dir +:+ name) = Some data
        /\ xml_parse data = Uncaught e).
Proof.
  intros Hraise _ _.
  destruct (main_cases upper isspace py_str json_load xml_parse server w)
    as [(e1 & w1 & Hrun & H1)
       | [(e2 & w1 & w2 & Hrun & H1 & H2)
         | (w1 & w2 & Hrun & _)]];
    rewrite Hrun in Hraise.
  - injection Hraise as -> ->. left. split.
    + intros name. by apply bulk_grows_processed.
    + intros path data. by apply bulk_grows_keeps_all.
  - injection Hraise as -> ->. left. split.
    + intros name. rewrite (cache_grows_processed _ _ name H2).
      by apply bulk_grows_processed.
    + intros path data Hdata.
      apply (cache_grows_keeps_all _ _ _ _ H2).
      by apply (bulk_grows_keeps_all _ _ _ _ H1).
  - destruct (extraction_stage upper isspace xml_parse w2)
      as [(w3 & Hstage3 & _) | (e3 & w3 & name & data & Hstage3 & _ & Hd & Hp)];
      rewrite Hstage3 in Hraise; [done|].
    injection Hraise as -> ->. right. by exists name, data.
Qed.

Lemma X12_witness :
  ((forall name,
       fs (final (main Demo.upper Demo.isspace Demo.py_str Demo.json_load
                    Demo.xml_parse Demo.server_down Demo.cached_odd))
         !! (processed_dir +:+ name)
       = fs Demo.cached_odd !! (processed_dir +:+ name))
   /\ (forall path data,
         fs Demo.cached_odd !! path = Some data ->
         fs (final (main Demo.upper Demo.isspace Demo.py_str Demo.json_load
                      Demo.xml_parse Demo.server_down Demo.cached_odd))
           !! path = Some data))
  \/ (exists name data,
        fs (final (main Demo.upper Demo.isspace Demo.py_str Demo.json_load
                     Demo.xml_parse Demo.server_down Demo.cached_odd))
          !! (individual_law_data_dir +:+ name) = Some data
        /\ Demo.xml_parse data
           = Uncaught (Exception (response_code_message 503
                                    (bulk_data_endpoint 113)))).
Proof.
  apply (X12_how_a_run_fails Demo.upper Demo.isspace Demo.py_str
           Demo.json_load Demo.xml_parse Demo.server_down Demo.cached_odd).
  - vm_compute; reflexivity.
  - intros name [data Hdata].
    change (fs (final (main Demo.upper Demo.isspace Demo.py_str Demo.json_load
                         Demo.xml_parse Demo.server_down Demo.cached_odd)))
      with ({[ individual_law_data_dir +:+ Demo.law_file := Demo.odd_xml ]}
            : gmap string string) in Hdata.
    apply lookup_singleton_Some in Hdata as [Heq _].
    symmetry in Heq. by apply bulk_not_individual in Heq.
  - intros name [data Hdata].
    change (fs (final (main Demo.upper Demo.isspace Demo.py_str Demo.json_load
                         Demo.xml_parse Demo.server_down Demo.cached_odd)))
      with ({[ individual_law_data_dir +:+ Demo.law_file := Demo.odd_xml ]}
            : gmap string string) in Hdata.
    apply lookup_singleton_Some in Hdata as [Heq _].
    apply individual_name_inj in Heq as <-. reflexivity.
Defined.

(** X13.  After a run that completes, the manifest of each congress from
    113 to 118 is in the bulk directory, and every document in the cache
    parses and has a text file at its text path. *)
Theorem X13_completed_run
    (upper : string -> string) (isspace : ascii -> bool)
    (py_str : json -> string) (json_load : string -> option json)
    (xml_parse : string -> parsed)
    (server : list string -> string -> option response)
    (w w' : world) :
  main upper isspace py_str json_load xml_parse server w = Ok tt w' ->
  (forall congress,
      (113 <= congress <= 118)%nat ->
      is_Some (fs w' !! (bulk_data_dir +:+ plaw_name congress)))
  /\ (forall name data,
        fs w' !! (individual_law_data_dir +:+ name) = Some data ->
        (exists root, xml_parse data = Tree root)
        /\ is_Some (fs w' !! txt_path name)).
Proof.
  intros Hok.
  destruct (main_cases upper isspace py_str json_load xml_parse server w)
    as [(e1 & w1 & Hrun & _)
       | [(e2 & w1 & w2 & Hrun & _)
         | (w1 & w2 & Hrun & Hstage1 & Hstage2 & H1 & H2)]];
    rewrite Hrun in Hok; [done | done |].
  destruct (extraction_stage upper isspace xml_parse w2)
    as [(w3 & Hrun3 & _ & Htri & Hbad & Hgood & Hcaught)
       | (e & w3 & _ & _ & Hrun3 & _)];
    rewrite Hrun3 in Hok; [|done].
  injection Hok as ->.
  split.
  - intros congress Hrange.
    apply get_bulk_public_laws_settle in Hstage1.
    rewrite Forall_forall in Hstage1.
    destruct (Hstage1 congress) as [data Hdata].
    { unfold congresses. apply list_elem_of_In, in_seq. lia. }
    apply (cache_grows_keeps_all _ _ _ _ H2) in Hdata.
    exists data.
    destruct (Htri (plaw_json congress))
      as [Hsame | [(name & d & m & _ & Heq & _) | (name & d & r & _ & Heq & _)]].
    + by rewrite <- Hdata.
    + unfold plaw_json in Heq. by apply bulk_not_individual in Heq.
    + rewrite txt_path_processed in Heq. unfold plaw_json in Heq.
      by apply bulk_not_processed in Heq.
  - intros name data Hleft.
    assert (Hbefore : fs w2 !! (individual_law_data_dir +:+ name) = Some data).
    { destruct (Htri (individual_law_data_dir +:+ name))
        as [Hsame | [(name' & d & m & _ & _ & _ & _ & Hnone)
                    | (name' & d & r & _ & Heq & _)]].
      - by rewrite <- Hsame.
      - congruence.
      - by apply txt_path_not_cached' in Heq. }
    assert (Hlisted : is_Some (fs w2 !! (individual_law_data_dir +:+ name)))
      by (by eexists).
    destruct (xml_parse data) as [message|root|e] eqn:Hparse.
    + rewrite (Hbad name data message Hlisted Hbefore Hparse) in Hleft. done.
    + split; [by eexists|].
      destruct (Hgood name data root Hlisted Hbefore Hparse)
        as (name' & d & r & _ & _ & _ & _ & Hsome).
      by eexists.
    + by destruct (Hcaught name data e Hlisted Hbefore).
Qed.

Lemma X13_witness :
  (exists root, Demo.xml_parse Demo.law_xml = Tree root)
  /\ is_Some (fs Demo.stage_3 !! txt_path Demo.law_file).
Proof.
  destruct (X13_completed_run Demo.upper Demo.isspace Demo.py_str
              Demo.json_load Demo.xml_parse Demo.server Demo.fresh
              Demo.stage_3) as [_ Hdocuments].
  - vm_compute; reflexivity.
  - apply (Hdocuments Demo.law_file Demo.law_xml). vm_compute; reflexivity.
Defined.

(** ** The cut at the marker, on its own *)

Section Cut.
Variable upper : string -> string.

(** A search that succeeds has found the first marker. *)
Lemma find_legislative_history_Some (texts : list string) :
  forall k j,
    find_legislative_history upper k texts = Some j ->
    exists i t,
      j = (k + i)%nat
      /\ texts !! i = Some t
      /\ upper t = LEGISLATIVE_HISTORY
      /\ forall i' u, (i' < i)%nat -> texts !! i' = Some u ->
                      upper u <> LEGISLATIVE_HISTORY.
Proof.
  induction texts as [|x texts IH]; intros k j Hfind; [done|].
  cbn [find_legislative_history] in Hfind.
  destruct (String.eqb (upper x) LEGISLATIVE_HISTORY) eqn:Hx.
  - injection Hfind as <-. apply String.eqb_eq in Hx.
    exists 0%nat, x. split; [lia|]. split; [done|]. split; [done|].
    intros i' u Hlt. lia.
  - destruct (IH (S k) j Hfind) as (i & t & -> & Hi & Ht & Hbefore).
    exists (S i), t. split; [lia|]. split; [done|]. split; [done|].
    intros [|i'] u Hlt Hu.
    + injection Hu as <-. intros Hm. apply String.eqb_neq in Hx. done.
    + apply (Hbefore i' u); [lia | done].
Qed.

(** A search that fails has seen no marker. *)
Lemma find_legislative_history_None (texts : list string) :
  forall k,
    find_legislative_history upper k texts = None ->
    forall u, u ∈ texts -> upper u <> LEGISLATIVE_HISTORY.
Proof.
  induction texts as [|x texts IH]; intros k Hfind u Hin;
    [by apply elem_of_nil in Hin|].
  cbn [find_legislative_history] in Hfind.
  destruct (String.eqb (upper x) LEGISLATIVE_HISTORY) eqn:Hx; [done|].
  apply elem_of_cons in Hin as [-> | Hin].
  - by apply String.eqb_neq in Hx.
  - by apply (IH (S k) Hfind).
Qed.

(** What [truncate] does, by the place of the first marker. *)
Lemma truncate_cases (texts : list string) :
  (truncate upper texts = texts
   /\ forall u, u ∈ texts -> upper u <> LEGISLATIVE_HISTORY)
  \/ (truncate upper texts = texts
      /\ exists t, texts !! 0%nat = Some t /\ upper t = LEGISLATIVE_HISTORY)
  \/ (exists i, truncate upper texts = take (S i) texts
                /\ forall u, u ∈ take (S i) texts ->
                             upper u <> LEGISLATIVE_HISTORY).
Proof.
  unfold truncate.
  destruct (find_legislative_history upper 0 texts) as [j|] eqn:Hfind.
  - apply find_legislative_history_Some in Hfind
      as (i & t & -> & Hi & Ht & Hbefore).
    right. destruct i as [|i]; cbn [Nat.add].
    + left. split; [done | by exists t].
    + right. exists i. split; [done|].
      intros u Hin. apply list_elem_of_lookup_1 in Hin as [i' Hu].
      apply lookup_take_Some in Hu as [Hu Hlt].
      by apply (Hbefore i' u).
  - left. split; [done|]. by apply (find_legislative_history_None texts 0%nat).
Qed.
End Cut.

(** X14.  The cut keeps a prefix of the collected texts, and cutting
    twice is cutting once.  A text that upper-cases to the marker is left
    in the output only when the first collected text is a marker, and
    then nothing at all is cut. *)
Theorem X14_cut_at_the_marker
    (upper : string -> string) (texts : list string) :
  (exists dropped, texts = truncate upper texts ++ dropped)
  /\ truncate upper (truncate upper texts) = truncate upper texts
  /\ (forall u,
        u ∈ truncate upper texts -> upper u = LEGISLATIVE_HISTORY ->
        truncate upper texts = texts
        /\ exists t, texts !! 0%nat = Some t
                     /\ upper t = LEGISLATIVE_HISTORY).
Proof.
  destruct (truncate_cases upper texts)
    as [[Hsame Hnone] | [[Hsame Hfirst] | (i & Hcut & Hnone)]].
  - rewrite Hsame. split; [exists []; by rewrite app_nil_r|].
    split; [exact Hsame|]. intros u Hin Hu. by destruct (Hnone u Hin).
  - rewrite Hsame. split; [exists []; by rewrite app_nil_r|].
    split; [exact Hsame|]. intros u _ _. by split.
  - rewrite Hcut. split; [exists (drop (S i) texts); by rewrite take_drop|].
    split; [by apply truncate_no_match|].
    intros u Hin Hu. by destruct (Hnone u Hin).
Qed.

(** ** Ignored elements and their descendants *)

(** X15.  The collected texts of an element are its own contribution
    followed by the collected texts of its children, in order.  Ignoring
    a tag is not recursive: an element with an administrative tag
    contributes all that its children contribute, and nothing else. *)
Theorem X15_ignoring_is_not_recursive
    (isspace : ascii -> bool) (t : string) (x y : option string)
    (cs : list Element) :
  inner_texts isspace (Elem t x y cs)
  = option_list (contribution isspace (Elem t x y cs))
    ++ flat_map (inner_texts isspace) cs
  /\ (administrative t ->
      inner_texts isspace (Elem t x y cs)
      = flat_map (inner_texts isspace) cs).
Proof.
  assert (Hsplit : inner_texts isspace (Elem t x y cs)
                   = option_list (contribution isspace (Elem t x y cs))
                     ++ flat_map (inner_texts isspace) cs).
  { rewrite inner_texts_omap.
    change (iter (Elem t x y cs)) with (Elem t x y cs :: flat_map iter cs).
    rewrite (omap_cons _ (Elem t x y cs)). apply (f_equal (app _)).
    induction cs as [|c cs IH]; [done|].
    cbn [flat_map]. by rewrite omap_app, <- inner_texts_omap, IH. }
  split; [exact Hsplit|].
  intros Hadm. rewrite Hsplit. apply is_ignored_spec in Hadm.
  unfold contribution. cbn [tag]. by rewrite Hadm.
Qed.

Lemma X15_witness :
  inner_texts Demo.isspace
    (Elem (Demo.in_uslm "num") (Some "Public Law") None
       [Elem (Demo.in_uslm "inline") (Some "115-1") None []])
  = flat_map (inner_texts Demo.isspace)
      [Elem (Demo.in_uslm "inline") (Some "115-1") None []].
Proof.
  apply (X15_ignoring_is_not_recursive Demo.isspace (Demo.in_uslm "num")
           (Some "Public Law") None
           [Elem (Demo.in_uslm "inline") (Some "115-1") None []]).
  exists "{http://schemas.gpo.gov/xml/uslm}", "num".
  split; [apply list_elem_of_here|].
  split; [|reflexivity].
  do 5 apply list_elem_of_further. apply list_elem_of_here.
Defined.

(** ** The requests of the manifest stage *)

Section ManifestRequests.
Variable server : list string -> string -> option response.

(** [not check_if_raw_data_exists(congress)], read off the files. *)
Lemma missing_after_insert (files : gmap string string) (c c' : nat)
    (data : string) :
  c <> c' ->
  negb (bool_decide (is_Some (<[plaw_json c := data]> files !! plaw_json c')))
  = negb (bool_decide (is_Some (files !! plaw_json c'))).
Proof.
  intros Hne. rewrite lookup_insert_ne; [done|].
  intros Heq. by apply plaw_json_inj in Heq.
Qed.

Lemma get_bulk_public_law_requests (cs : list nat) : forall w w',
  NoDup cs ->
  for_each (get_bulk_public_law server) cs w = Ok tt w' ->
  calls w' = calls w ++ map bulk_data_endpoint (missing_manifests (fs w) cs).
Proof.
  unfold missing_manifests.
  induction cs as [|c cs IH]; intros w w' Hnodup Hok.
  { injection Hok as <-. cbn. by rewrite app_nil_r. }
  apply NoDup_cons in Hnodup as [Hnotin Hnodup].
  cbn [for_each] in Hok. unfold bind in Hok. cbn [List.filter].
  destruct (fs w !! plaw_json c) as [data|] eqn:Hcached.
  - rewrite congress_cached in Hok by (by rewrite Hcached).
    rewrite bool_decide_eq_true_2 by (by eexists). cbn [negb].
    by rewrite (IH _ w' Hnodup Hok).
  - rewrite bool_decide_eq_false_2 by (by intros [? ?]). cbn [negb map].
    destruct (server (calls w) (bulk_data_endpoint c)) as [r|] eqn:Hserver.
    + assert (Hstep := congress_fetched server c r w Hcached Hserver).
      cbn zeta in Hstep. rewrite Hstep in Hok.
      destruct (status_code r =? 200)%Z; [|done].
      rewrite (IH _ w' Hnodup Hok). cbn [fs calls].
      rewrite <- app_assoc. cbn [app]. do 3 f_equal.
      apply filter_ext_in. intros c' Hin.
      apply missing_after_insert. intros ->.
      by apply list_elem_of_In in Hin.
    + exfalso. revert Hok.
      unfold get_bulk_public_law, bind, check_if_raw_data_exists, path_exists.
      rewrite bool_decide_eq_false_2 by (rewrite Hcached; by intros [? ?]).
      unfold logger, call_api. cbn [fs calls log]. by rewrite Hserver.
Qed.
End ManifestRequests.

(** X16.  A manifest stage that completes has sent one request for each
    congress whose manifest was missing, in the order of the congresses,
    and none for a congress whose manifest was cached. *)
Theorem X16_one_request_per_missing_manifest
    (server : list string -> string -> option response) (w w' : world) :
  get_bulk_public_laws server w = Ok tt w' ->
  calls w'
  = calls w ++ map bulk_data_endpoint (missing_manifests (fs w) congresses).
Proof.
  apply get_bulk_public_law_requests. apply NoDup_seq.
Qed.

Lemma X16_witness :
  calls Demo.stage_1
  = calls (greeted Demo.fresh)
    ++ map bulk_data_endpoint
         (missing_manifests (fs (greeted Demo.fresh)) congresses).
Proof.
  apply (X16_one_request_per_missing_manifest Demo.server
           (greeted Demo.fresh) Demo.stage_1).
  vm_compute; reflexivity.
Defined.

(** ** Manifests that cannot be read *)

(** X17.  A cached manifest that is not the expected JSON ends
    [process_bulk_plaw_file] with an exception before any request is sent
    and before any file is written: text that is not JSON raises
    [JSONDecodeError]; a value that is not a dictionary raises
    [TypeError]; a dictionary without the key "files" raises [KeyError];
    and so does, with [TypeError], a value under "files" that cannot be
    iterated. *)
Theorem X17_unreadable_manifest
    (py_str : json -> string) (json_load : string -> option json)
    (server : list string -> string -> option response)
    (file congress data : string) (w : world) :
  decode_congress file w = Ok congress w ->
  fs w !! (bulk_data_dir +:+ file) = Some data ->
  let run := process_bulk_plaw_file py_str json_load server file w in
  (json_load data = None ->
   exists w', run = Raise JSONDecodeError w' /\ same_state w' w)
  /\ (forall v,
        json_load data = Some v -> (forall fields, v <> JObj fields) ->
        exists w', run = Raise TypeError w' /\ same_state w' w)
  /\ (forall fields,
        json_load data = Some (JObj fields) -> assoc "files" fields = None ->
        exists w', run = Raise (KeyError "files") w' /\ same_state w' w)
  /\ (forall fields v,
        json_load data = Some (JObj fields) ->
        assoc "files" fields = Some v ->
        (v = JNull \/ (exists b, v = JBool b) \/ (exists n, v = JNum n)) ->
        exists w', run = Raise TypeError w' /\ same_state w' w).
Proof.
  intros Hdecode Hdata run. subst run.
  unfold process_bulk_plaw_file, bind. rewrite Hdecode.
  unfold logger, read_file. cbn [fs calls log]. rewrite Hdata.
  split; [|split; [|split]].
  - intros ->. eexists. split; [reflexivity | by split].
  - intros v -> Hshape.
    destruct v; try (eexists; split; [reflexivity | by split]).
    by destruct (Hshape fields).
  - intros fields -> Hnone. cbn [subscript]. rewrite Hnone.
    eexists. split; [reflexivity | by split].
  - intros fields v -> Hfiles Hshape. cbn [subscript]. rewrite Hfiles.
    destruct Hshape as [-> | [[b ->] | [n ->]]];
      (eexists; split; [reflexivity | by split]).
Qed.

Lemma X17_witness :
  exists w',
    process_bulk_plaw_file Demo.py_str Demo.json_load Demo.server
      "plaw_113.json"
      (World {[ bulk_data_dir +:+ "plaw_113.json" := "<html>" ]} [] [])
    = Raise JSONDecodeError w'
    /\ same_state w'
         (World {[ bulk_data_dir +:+ "plaw_113.json" := "<html>" ]} [] []).
Proof.
  apply (X17_unreadable_manifest Demo.py_str Demo.json_load Demo.server
           "plaw_113.json" "113" "<html>"
           (World {[ bulk_data_dir +:+ "plaw_113.json" := "<html>" ]} [] [])).
  - reflexivity.
  - apply lookup_singleton_eq.
  - reflexivity.
Defined.
